(** * SEBI update notifier: a shallow embedding of [main.py]

    The program fetches the first row of a listing page, follows it to a
    document, extracts and summarises its text, posts a message to a chat
    and records the title it has notified in [last_update.txt].

    Python strings are sequences of Unicode code points, the libraries the
    program calls (requests, BeautifulSoup's parser, urllib.parse,
    pdfplumber) are the fields of a [Platform] record, and the functions
    of [main.py] are written in a state-and-exception monad over the
    network, the state file, the console and a log of the requests made. *)

From Stdlib Require Import String Ascii.
From Stdlib Require Import List NArith ZArith Bool Lia.
From Stdlib.Strings Require Import Byte.
From Stdlib Require Import DecimalString.
Import ListNotations.

Set Warnings "-register-all".

(* ================================================================== *)
(** * Python text *)
(* ================================================================== *)

(** A [str] is a sequence of code points. Whether a string can be
    written to the console or to a file is for the platform to say. *)
Definition char := N.
Definition str := list char.

(** An ASCII literal as a [str]. *)
Definition lit (s : string) : str := map N_of_ascii (list_ascii_of_string s).

Fixpoint list_eqb {A} (eqb : A -> A -> bool) (l1 l2 : list A) : bool :=
  match l1, l2 with
  | [], [] => true
  | a :: l1', b :: l2' => eqb a b && list_eqb eqb l1' l2'
  | _, _ => false
  end.

Definition str_eqb : str -> str -> bool := list_eqb N.eqb.

(** [x in s] on characters. *)
Definition char_in (c : char) (s : str) : bool := existsb (N.eqb c) s.

(** [needle in hay] on strings and on bytes. *)
Fixpoint startswith {A} (eqb : A -> A -> bool) (p s : list A) : bool :=
  match p, s with
  | [], _ => true
  | a :: p', b :: s' => eqb a b && startswith eqb p' s'
  | _ :: _, [] => false
  end.

Fixpoint contains {A} (eqb : A -> A -> bool) (needle hay : list A) : bool :=
  startswith eqb needle hay
  || match hay with
     | [] => false
     | _ :: hay' => contains eqb needle hay'
     end.

(** [str.isspace] on one character: the code points [str.strip()] removes. *)
Definition isspace (c : char) : bool :=
  (((9 <=? c) && (c <=? 13)) || ((28 <=? c) && (c <=? 32))
   || (c =? 133) || (c =? 160) || (c =? 5760)
   || ((8192 <=? c) && (c <=? 8202))
   || (c =? 8232) || (c =? 8233) || (c =? 8239) || (c =? 8287)
   || (c =? 12288))%N.

Fixpoint lstrip (s : str) : str :=
  match s with
  | [] => []
  | c :: t => if isspace c then lstrip t else s
  end.

Definition rstrip (s : str) : str := rev (lstrip (rev s)).

(** [s.strip()] *)
Definition strip (s : str) : str := rstrip (lstrip s).

(** [sep.join(parts)] *)
Fixpoint join (sep : str) (parts : list str) : str :=
  match parts with
  | [] => []
  | [x] => x
  | x :: rest => x ++ sep ++ join sep rest
  end.

(** The whitespace-separated words of [s] (the [\S+] matches). *)
Fixpoint words_from (cur : str) (s : str) : list str :=
  match s with
  | [] => match cur with [] => [] | _ => [rev cur] end
  | c :: t =>
      if isspace c
      then match cur with [] => words_from [] t | _ => rev cur :: words_from [] t end
      else words_from (c :: cur) t
  end.

Definition words (s : str) : list str := words_from [] s.

(** [str(n)] for an integer. *)
Definition str_of_int (z : Z) : str := lit (NilZero.string_of_int (Z.to_int z)).

Definition CR : char := 13%N.
Definition LF : char := 10%N.
Definition backslash : char := 92%N.

(** Reading a file opened in text mode with the default [newline=None]
    (universal newlines): a carriage return, alone or followed by a line
    feed, reaches the program as one line feed. *)
Fixpoint universal_newlines (s : str) : str :=
  match s with
  | [] => []
  | c :: t =>
      if (c =? CR)%N
      then LF :: match t with
                 | [] => []
                 | d :: t' => if (d =? LF)%N then universal_newlines t'
                              else universal_newlines t
                 end
      else c :: universal_newlines t
  end.

(** Truthiness of a value that is [None] or a string. *)
Definition truthy (o : option str) : bool :=
  match o with
  | Some (_ :: _) => true
  | _ => false
  end.

(* ================================================================== *)
(** * Regular-expression substitution with a character class *)
(* ================================================================== *)

(** [re.sub('([' + re.escape(cls) + '])', template, text)]: the pattern
    is one capturing group around a character class in which
    [re.escape] has made every listed character literal, so a match is
    one character of [cls]; matches are replaced from left to right
    and everything else is copied. [template] receives group 1. *)
Fixpoint re_sub_class (cls : str) (template : char -> str) (text : str) : str :=
  match text with
  | [] => []
  | c :: t =>
      (if char_in c cls then template c else [c]) ++ re_sub_class cls template t
  end.

Definition escape_chars : str := lit "_*[]()~`>#+-=|{}.!".

(** The replacement template [r'\\\1']: a backslash, then group 1. *)
Definition escape_markdown (text : str) : str :=
  re_sub_class escape_chars (fun g1 => [backslash; g1]) text.

(* ================================================================== *)
(** * Python values, exceptions and HTTP responses *)
(* ================================================================== *)

(** What [response.json()] can produce and what [json=] sends
    (floating-point numbers are left out: the program only hands such a
    value on). *)
Inductive pyval : Type :=
| PNone
| PBool (b : bool)
| PInt (z : Z)
| PStr (s : str)
| PList (items : list pyval)
| PDict (items : list (str * pyval)).

(** Exceptions derived from [Exception]; [exn_str] is [str(e)]. *)
Inductive exn_class : Type :=
| AttributeError | KeyError | IndexError | TypeError | ValueError
| OSError | RequestException | OtherError.

Record exn : Type := Exn { exn_type : exn_class; exn_str : str }.

Inductive result (A : Type) : Type :=
| Ok (a : A)
| Raise (e : exn).
Arguments Ok {A} a.
Arguments Raise {A} e.

(** Dictionary lookup; the first binding of a key is the dictionary's. *)
Fixpoint lookup {V} (k : str) (d : list (str * V)) : option V :=
  match d with
  | [] => None
  | (k', v) :: d' => if str_eqb k k' then Some v else lookup k d'
  end.

(** [repr] of a string key as [KeyError] shows it. *)
Definition quoted (k : str) : str := lit "'" ++ k ++ lit "'".

(** [v[0]] *)
Definition getitem0 (v : pyval) : result pyval :=
  match v with
  | PList (x :: _) => Ok x
  | PList [] => Raise (Exn IndexError (lit "list index out of range"))
  | PStr (c :: _) => Ok (PStr [c])
  | PStr [] => Raise (Exn IndexError (lit "string index out of range"))
  | PDict _ => Raise (Exn KeyError (lit "0"))
  | PNone => Raise (Exn TypeError (lit "'NoneType' object is not subscriptable"))
  | PBool _ => Raise (Exn TypeError (lit "'bool' object is not subscriptable"))
  | PInt _ => Raise (Exn TypeError (lit "'int' object is not subscriptable"))
  end.

(** [v.get(key, default)]: only a dictionary has the method. *)
Definition get_method (v : pyval) (key : str) (default : pyval) : result pyval :=
  match v with
  | PDict d => Ok (match lookup key d with Some x => x | None => default end)
  | PNone => Raise (Exn AttributeError (lit "'NoneType' object has no attribute 'get'"))
  | PBool _ => Raise (Exn AttributeError (lit "'bool' object has no attribute 'get'"))
  | PInt _ => Raise (Exn AttributeError (lit "'int' object has no attribute 'get'"))
  | PStr _ => Raise (Exn AttributeError (lit "'str' object has no attribute 'get'"))
  | PList _ => Raise (Exn AttributeError (lit "'list' object has no attribute 'get'"))
  end.

(** A [requests.Response]: [json] is the outcome of [response.json()]. *)
Record response : Type := Response {
  status_code : Z;
  text : str;
  content : list byte;
  json : result pyval
}.

(* ================================================================== *)
(** * BeautifulSoup trees *)
(* ================================================================== *)

(** A parsed document: text nodes and tags with their attribute
    dictionary and children. The soup object itself is a tag. *)
Inductive node : Type :=
| NavigableString (s : str)
| Tag (name : str) (attrs : list (str * str)) (contents : list node).

(** All nodes below [n], in document order. *)
Fixpoint descendants (n : node) : list node :=
  match n with
  | NavigableString _ => []
  | Tag _ _ cs => flat_map (fun c => c :: descendants c) cs
  end.

(** Keyword filters of [find]: [attr=value] compares the attribute's
    value; [class_=value] looks among the whitespace-separated classes. *)
Inductive attr_filter : Type :=
| AttrIs (attr value : str)
| ClassIs (value : str).

Definition attr_matches (attrs : list (str * str)) (f : attr_filter) : bool :=
  match f with
  | AttrIs a v =>
      match lookup a attrs with Some x => str_eqb x v | None => false end
  | ClassIs v =>
      match lookup (lit "class") attrs with
      | Some x => existsb (str_eqb v) (words x)
      | None => false
      end
  end.

Definition tag_matches (name : str) (filters : list attr_filter) (n : node) : bool :=
  match n with
  | NavigableString _ => false
  | Tag nm attrs _ => str_eqb nm name && forallb (attr_matches attrs) filters
  end.

(** [tag.find(name, **filters)]: the first matching descendant or [None]. *)
Definition soup_find (name : str) (filters : list attr_filter) (n : node)
  : option node :=
  find (tag_matches name filters) (descendants n).

(** [tag.find_all(name)] *)
Definition find_all (name : str) (n : node) : list node :=
  filter (tag_matches name []) (descendants n).

(** The strings below a tag, in document order. *)
Definition strings (n : node) : list str :=
  flat_map (fun d => match d with NavigableString s => [s] | Tag _ _ _ => [] end)
           (descendants n).

Definition nonempty (s : str) : bool :=
  match s with [] => false | _ :: _ => true end.

(** [tag.get_text(strip=True)]: every string stripped, the empty ones
    dropped, the rest concatenated. *)
Definition get_text_strip (n : node) : str :=
  concat (filter nonempty (map strip (strings n))).

Definition tag_attrs (n : node) : list (str * str) :=
  match n with
  | NavigableString _ => []
  | Tag _ a _ => a
  end.

(** [tag[key]] *)
Definition getitem (n : node) (key : str) : result str :=
  match lookup key (tag_attrs n) with
  | Some v => Ok v
  | None => Raise (Exn KeyError (quoted key))
  end.

(** [tag.get(key, default)] *)
Definition get_attr (n : node) (key : str) (default : str) : str :=
  match lookup key (tag_attrs n) with
  | Some v => v
  | None => default
  end.

(** Using a method of a value that may be [None]. *)
Definition none_has_no (method : string) : exn :=
  Exn AttributeError
      (lit "'NoneType' object has no attribute '" ++ lit method ++ lit "'").

Definition method_of {A} (o : option A) (method : string) : result A :=
  match o with
  | Some a => Ok a
  | None => Raise (none_has_no method)
  end.

(* ================================================================== *)
(** * The platform: network and libraries *)
(* ================================================================== *)

(** The libraries are taken as they are: each field is the outcome of
    one library call, a value or an exception. The network has a state
    of its own, so two requests to one URL may be answered differently. *)
Record Platform : Type := {
  net : Type;
  (** [requests.get(url, headers=HEADERS, timeout=15)] *)
  requests_get : str -> net -> result response * net;
  (** [requests.post(url, headers=headers, json=payload, timeout=...)] *)
  requests_post : str -> list (str * str) -> pyval -> net -> result response * net;
  (** [BeautifulSoup(markup, "html.parser")] *)
  BeautifulSoup : str -> result node;
  (** [urljoin(base, url)] *)
  urljoin : str -> str -> result str;
  (** [urlparse(url).query] *)
  urlparse_query : str -> result str;
  (** [parse_qs(query)] *)
  parse_qs : str -> result (list (str * list str));
  (** [pdfplumber.open(io.BytesIO(data))] and its [pages] *)
  page : Type;
  pdf_pages : list byte -> result (list page);
  (** [p.extract_text()] *)
  extract_text : page -> result (option str);
  (** [format(v)] of a value that is not a string *)
  format_value : pyval -> str;
  (** [print(line)]: what writing the line to standard output raises,
      if anything (an encoding that lacks one of its characters, a
      closed pipe) *)
  print_error : str -> option exn;
  (** [f.write(text)] on the state file once it is open for writing,
      and closing it: what that raises, if anything, and the text the
      file is left with (nothing of a text that cannot be encoded;
      on a full disk, what went through) *)
  write_failure : str -> option (exn * str)
}.

(** The variables [os.getenv] reads when the module is loaded. *)
Record Environ : Type := {
  env_HF_API_KEY : option str;
  env_HF_MODEL : option str;
  env_TELEGRAM_TOKEN : option str;
  env_TELEGRAM_CHAT_ID : option str
}.

(** [last_update.txt] as the program can find it. *)
Inductive file_state : Type :=
| Missing                     (* no such path *)
| Stored (data : str)         (* a text file with these characters *)
| Unreadable (e : exn).       (* the path exists; opening or decoding it raises *)

(** Requests made, oldest first. *)
Inductive call : Type :=
| Get (url : str)
| Post (url : str) (headers : list (str * str)) (payload : pyval).

(* ================================================================== *)
(** * The program *)
(* ================================================================== *)

Declare Scope py_scope.
Delimit Scope py_scope with py.

Section Program.

Variable X : Platform.
Variable environ : Environ.

(** What a run can read and change. *)
Record state : Type := State {
  world : net X;
  file : file_state;              (* last_update.txt *)
  write_error : option exn;       (* what opening it for writing raises *)
  stdout : list str;              (* lines printed, oldest first *)
  calls : list call
}.

(** Statements: from a state to a value or an exception, and a state. *)
Definition M (A : Type) : Type := state -> result A * state.

Definition ret {A} (a : A) : M A := fun st => (Ok a, st).

Definition raise {A} (e : exn) : M A := fun st => (Raise e, st).

Definition bind {A B} (m : M A) (k : A -> M B) : M B :=
  fun st =>
    match m st with
    | (Ok a, st') => k a st'
    | (Raise e, st') => (Raise e, st')
    end.

(** [try: body except Exception as e: handler] *)
Definition try_except {A} (body : M A) (handler : exn -> M A) : M A :=
  fun st =>
    match body st with
    | (Ok a, st') => (Ok a, st')
    | (Raise e, st') => handler e st'
    end.

(** A library call that touches no state. *)
Definition lift {A} (r : result A) : M A := fun st => (r, st).

Notation "x <- m ;; k" := (bind m (fun x => k))
  (at level 61, m at next level, right associativity) : py_scope.
Notation "m ;;; k" := (bind m (fun _ => k))
  (at level 61, right associativity) : py_scope.
Local Open Scope py_scope.

(** [print(line)]: the line reaches the console, or writing it raises
    and nothing is printed. *)
Definition print (line : str) : M unit :=
  fun st =>
    match print_error X line with
    | Some e => (Raise e, st)
    | None =>
        (Ok tt, State (world st) (file st) (write_error st)
                      (stdout st ++ [line]) (calls st))
    end.

Definition http_get (url : str) : M response :=
  fun st =>
    let (r, w) := requests_get X url (world st) in
    (r, State w (file st) (write_error st) (stdout st)
              (calls st ++ [Get url])).

Definition http_post (url : str) (headers : list (str * str)) (payload : pyval)
  : M response :=
  fun st =>
    let (r, w) := requests_post X url headers payload (world st) in
    (r, State w (file st) (write_error st) (stdout st)
              (calls st ++ [Post url headers payload])).

(** ** Constants *)

Definition SEBI_URL : str :=
  lit "https://www.sebi.gov.in/sebiweb/home/HomeAction.do?doListingAll=yes".

Definition HF_API_KEY : option str := env_HF_API_KEY environ.

Definition HF_MODEL : str :=
  match env_HF_MODEL environ with
  | Some m => m
  | None => lit "facebook/bart-large-cnn"
  end.

Definition TELEGRAM_TOKEN : option str := env_TELEGRAM_TOKEN environ.
Definition TELEGRAM_CHAT_ID : option str := env_TELEGRAM_CHAT_ID environ.

(** The value of a variable inside an f-string ([None] prints as such). *)
Definition env_text (o : option str) : str :=
  match o with
  | Some v => v
  | None => lit "None"
  end.

(** The warning sign with its variation selector, and the other signs. *)
Definition warning : str := [9888; 65039]%N.
Definition check_mark : str := [9989]%N.
Definition cross_mark : str := [10060]%N.
Definition repeat_sign : str := [128257]%N.
Definition rocket : str := [128640]%N.
Definition info_sign : str := [8505; 65039]%N.
Definition loudspeaker : str := [128226]%N.
Definition memo : str := [128221]%N.
Definition link_sign : str := [128279]%N.
Definition calendar : str := [128197]%N.
Definition folder : str := [128194]%N.

(** ** Fetch the latest entry *)

Record entry : Type := Entry {
  date : str;
  category : str;
  title : str;
  detail_link : option str
}.

Definition get_latest_update : M (option entry) :=
  try_except
    (resp <- http_get SEBI_URL ;;
     soup <- lift (BeautifulSoup X (text resp)) ;;
     let table :=
       match soup_find (lit "table") [AttrIs (lit "id") (lit "sample_1")] soup with
       | Some t => Some t
       | None => soup_find (lit "table") [ClassIs (lit "table")] soup
       end in
     match table with
     | None =>
         print (warning ++ lit " Could not find updates table.") ;;;
         ret None
     | Some table =>
         tbody <- lift (method_of (soup_find (lit "tbody") [] table) "find") ;;
         first_row <- lift (method_of (soup_find (lit "tr") [] tbody) "find_all") ;;
         match find_all (lit "td") first_row with
         | column0 :: column1 :: column2 :: _ =>
             let date := get_text_strip column0 in
             let category := get_text_strip column1 in
             let title_tag := soup_find (lit "a") [] column2 in
             anchor <- lift (method_of title_tag "get_text") ;;
             let title := get_text_strip anchor in
             detail_link <-
               match title_tag with
               | Some a =>
                   href <- lift (getitem a (lit "href")) ;;
                   url <- lift (urljoin X SEBI_URL href) ;;
                   ret (Some url)
               | None => ret None
               end ;;
             ret (Some (Entry date category title detail_link))
         | _ =>
             print (warning ++ lit " Unexpected table format.") ;;;
             ret None
         end
     end)
    (fun e =>
       print (warning ++ lit " Error fetching latest update: " ++ exn_str e) ;;;
       ret None).

(** ** Extract the document link *)

(** The reference the page embeds: the [src] of the PDF embed when it
    names a [.pdf], else the [src] of the first iframe, else [None]. *)
Definition raw_url_of (soup : node) : result (option str) :=
  let embed_tag :=
    soup_find (lit "embed") [AttrIs (lit "type") (lit "application/pdf")] soup in
  let iframe_tag := soup_find (lit "iframe") [] soup in
  let from_iframe :=
    match iframe_tag with
    | Some f =>
        match getitem f (lit "src") with
        | Ok u => Ok (Some u)
        | Raise e => Raise e
        end
    | None => Ok None
    end in
  match embed_tag with
  | Some e =>
      if contains N.eqb (lit ".pdf") (get_attr e (lit "src") [])
      then match getitem e (lit "src") with
           | Ok u => Ok (Some u)
           | Raise x => Raise x
           end
      else from_iframe
  | None => from_iframe
  end.

Definition extract_pdf_link_from_page (detail_url : str) : M (option str) :=
  try_except
    (resp <- http_get detail_url ;;
     soup <- lift (BeautifulSoup X (text resp)) ;;
     raw_url <- lift (raw_url_of soup) ;;
     if negb (truthy raw_url)
     then print (warning ++ lit " No PDF found.") ;;; ret None
     else
       let raw_url := match raw_url with Some u => u | None => [] end in
       parsed_query <- lift (urlparse_query X raw_url) ;;
       query <- lift (parse_qs X parsed_query) ;;
       match lookup (lit "file") query with
       | Some values =>
           match values with
           | v :: _ => ret (Some v)
           | [] => raise (Exn IndexError (lit "list index out of range"))
           end
       | None =>
           url <- lift (urljoin X detail_url raw_url) ;;
           ret (Some url)
       end)
    (fun e =>
       print (warning ++ lit " Error extracting PDF link: " ++ exn_str e) ;;;
       ret None).

(** ** Download and read the document *)

Definition pdf_signature : list byte := [x25; x50; x44; x46].   (* b"%PDF" *)

Definition download_pdf_bytes (url : str) : M (option (list byte)) :=
  try_except
    (resp <- http_get url ;;
     if negb (contains Byte.eqb pdf_signature (firstn 1024 (content resp)))
     then print (warning ++ lit " Not a valid PDF.") ;;; ret None
     else ret (Some (content resp)))
    (fun e =>
       print (warning ++ lit " Error downloading PDF: " ++ exn_str e) ;;;
       ret None).

(** [p.extract_text() or ""] for each page in turn; the first
    exception ends the iteration. *)
Fixpoint page_texts (pages : list (page X)) : result (list str) :=
  match pages with
  | [] => Ok []
  | p :: rest =>
      match extract_text X p with
      | Raise e => Raise e
      | Ok t =>
          match page_texts rest with
          | Raise e => Raise e
          | Ok ts => Ok ((if truthy t then match t with Some s => s | None => [] end
                          else []) :: ts)
          end
      end
  end.

Definition extract_text_from_pdf_bytes (pdf_bytes : list byte) : M str :=
  try_except
    (pages <- lift (pdf_pages X pdf_bytes) ;;
     texts <- lift (page_texts pages) ;;
     ret (join [LF] texts))
    (fun e =>
       print (warning ++ lit " PDF parsing error: " ++ exn_str e) ;;;
       ret []).

(** ** Optional summarizer *)

Definition hf_url : str :=
  lit "https://api-inference.huggingface.co/models/" ++ HF_MODEL.

Definition hf_headers : list (str * str) :=
  [(lit "Authorization", lit "Bearer " ++ env_text HF_API_KEY)].

Definition hf_payload (txt : str) : pyval :=
  PDict [(lit "inputs", PStr (firstn 2000 txt))].

Definition no_key_notice : str := warning ++ lit " No Hugging Face API key set.".
Definition no_summary_notice : str := warning ++ lit " No summary returned.".

(** The result is whatever the [return] statement taken yields: a
    string, or the value stored under [summary_text]. *)
Definition summarize_text (txt : str) : M pyval :=
  if negb (truthy HF_API_KEY)
  then ret (PStr no_key_notice)
  else
    try_except
      (let url := hf_url in
       let headers := hf_headers in
       let payload := hf_payload txt in
       response <- http_post url headers payload ;;
       if (status_code response =? 200)%Z
       then
         body <- lift (json response) ;;
         first <- lift (getitem0 body) ;;
         lift (get_method first (lit "summary_text") (PStr no_summary_notice))
       else ret (PStr (warning ++ lit " Summary failed: " ++ text response)))
      (fun e => ret (PStr (warning ++ lit " Summary error: " ++ exn_str e))).

(** ** Telegram *)

Definition telegram_url : str :=
  lit "https://api.telegram.org/bot" ++ env_text TELEGRAM_TOKEN
  ++ lit "/sendMessage".

Definition telegram_payload (escaped_msg : str) : pyval :=
  PDict [(lit "chat_id", PStr (env_text TELEGRAM_CHAT_ID));
         (lit "text", PStr escaped_msg);
         (lit "parse_mode", PStr (lit "MarkdownV2"));
         (lit "disable_web_page_preview", PBool false)].

Definition send_telegram (message : str) : M bool :=
  if negb (truthy TELEGRAM_TOKEN) || negb (truthy TELEGRAM_CHAT_ID)
  then print (warning ++ lit " Telegram token or chat ID missing.") ;;; ret false
  else
    try_except
      (let escaped_msg := escape_markdown message in
       let url := telegram_url in
       let payload := telegram_payload escaped_msg in
       resp <- http_post url [] payload ;;
       if (status_code resp =? 200)%Z
       then print (check_mark ++ lit " Message sent to Telegram.") ;;; ret true
       else
         print (cross_mark ++ lit " Telegram API Error: "
                ++ str_of_int (status_code resp)) ;;;
         print (repeat_sign ++ lit " Response: " ++ text resp) ;;;
         ret false)
      (fun e =>
         print (warning ++ lit " Telegram send error: " ++ exn_str e) ;;;
         ret false).

(** ** Tracking *)

(** No [try] here: what [open] or [read] raises leaves the function. *)
Definition load_last_update : M (option str) :=
  fun st =>
    match file st with
    | Missing => (Ok None, st)
    | Stored data => (Ok (Some (strip (universal_newlines data))), st)
    | Unreadable e => (Raise e, st)
    end.

(** No [try] here either. Opening for writing raises and leaves the
    file alone, or empties it; writing the title then raises, the
    former content being gone, or stores the characters as given (the
    line separator is the POSIX one). *)
Definition save_last_update (title : str) : M unit :=
  fun st =>
    match write_error st with
    | Some e => (Raise e, st)
    | None =>
        match write_failure X title with
        | Some (e, remains) =>
            (Raise e, State (world st) (Stored remains) (write_error st)
                            (stdout st) (calls st))
        | None =>
            (Ok tt, State (world st) (Stored title) (write_error st)
                          (stdout st) (calls st))
        end
    end.

(** ** Main *)

(** [main] returns [None] on every path; the model returns which
    [return] was reached. *)
Inductive outcome : Type :=
| NoUpdate | AlreadyProcessed | NoDetailLink | NoPdfUrl | NoPdfBytes
| NoText | NotSent | Notified.

(** [load_last_update() == title] *)
Definition same_title (last : option str) (title : str) : bool :=
  match last with
  | Some t => str_eqb t title
  | None => false
  end.

(** [{summary}] inside the f-string. *)
Definition format (v : pyval) : str :=
  match v with
  | PStr s => s
  | _ => format_value X v
  end.

Definition compose_message (latest : entry) (summary : pyval) (pdf_url : str)
  : str :=
  loudspeaker ++ lit " *SEBI Update:* " ++ title latest ++ [LF]
  ++ [LF]
  ++ memo ++ lit " *Summary:* " ++ [LF]
  ++ format summary ++ [LF]
  ++ [LF]
  ++ link_sign ++ lit " [Read PDF](" ++ pdf_url ++ lit ")" ++ [LF]
  ++ calendar ++ lit " Date: " ++ date latest ++ [LF]
  ++ folder ++ lit " Category: " ++ category latest.

Definition or_empty {A} (o : option (list A)) : list A :=
  match o with
  | Some l => l
  | None => []
  end.

Definition main : M outcome :=
  print (rocket ++ lit " Checking SEBI for updates...") ;;;
  latest <- get_latest_update ;;
  match latest with
  | None => print (warning ++ lit " No update fetched.") ;;; ret NoUpdate
  | Some latest =>
      print (check_mark ++ lit " New update found: " ++ title latest) ;;;
      last <- load_last_update ;;
      if same_title last (title latest)
      then print (info_sign ++ lit " Already processed.") ;;; ret AlreadyProcessed
      else if negb (truthy (detail_link latest))
      then print (warning ++ lit " No detail link.") ;;; ret NoDetailLink
      else
        pdf_url <- extract_pdf_link_from_page (or_empty (detail_link latest)) ;;
        if negb (truthy pdf_url)
        then print (warning ++ lit " No PDF URL extracted.") ;;; ret NoPdfUrl
        else
          pdf_bytes <- download_pdf_bytes (or_empty pdf_url) ;;
          match or_empty pdf_bytes with
          | [] => ret NoPdfBytes
          | _ :: _ =>
              txt <- extract_text_from_pdf_bytes (or_empty pdf_bytes) ;;
              if negb (nonempty txt)
              then ret NoText
              else
                summary <- summarize_text txt ;;
                let message := compose_message latest summary (or_empty pdf_url) in
                sent <- send_telegram message ;;
                if sent
                then save_last_update (title latest) ;;; ret Notified
                else ret NotSent
          end
  end.

(** [if __name__ == "__main__": main()]: the exit status of the
    process, 1 when an exception leaves [main]. *)
Definition script (st : state) : Z * state :=
  match main st with
  | (Ok _, st') => (0%Z, st')
  | (Raise _, st') => (1%Z, st')
  end.

End Program.

Arguments State {X} _ _ _ _ _.
Arguments world {X} _.
Arguments file {X} _.
Arguments write_error {X} _.
Arguments stdout {X} _.
Arguments calls {X} _.
Arguments ret {X A} a st.
Arguments raise {X A} e st.
Arguments lift {X A} r st.
Arguments bind {X A B} m k st.
Arguments try_except {X A} body handler st.
Arguments print {X} line st.
Arguments http_get {X} url st.
Arguments http_post {X} url headers payload st.

(* ================================================================== *)
(** * A small platform to run the program on *)
(* ================================================================== *)

Module Demo.

(** A listing whose first row links the given title text. *)
Definition listing_page (title_text : str) : node :=
  Tag (lit "[document]") []
    [Tag (lit "table") [(lit "id", lit "sample_1")]
       [Tag (lit "tbody") []
          [Tag (lit "tr") []
             [Tag (lit "td") [] [NavigableString (lit "05-Jan-2024")];
              Tag (lit "td") [] [NavigableString (lit " Circular ")];
              Tag (lit "td") []
                [Tag (lit "a") [(lit "href", lit "/detail.html")]
                   [NavigableString title_text]]]]]].

(** A detail page whose embedded viewer carries the document in [file]. *)
Definition detail_page : node :=
  Tag (lit "[document]") []
    [Tag (lit "embed")
       [(lit "type", lit "application/pdf");
        (lit "src", lit "/web/viewer.html?file=https://example.com/doc.pdf")]
       []].

(** A detail page with a plain iframe. *)
Definition iframe_page : node :=
  Tag (lit "[document]") []
    [Tag (lit "iframe") [(lit "src", lit "/files/doc.pdf")] []].

Definition detail_url : str := lit "https://www.sebi.gov.in/detail.html".

Fixpoint after_question_mark (u : str) : str :=
  match u with
  | [] => []
  | c :: t => if (c =? 63)%N then t else after_question_mark t
  end.

Definition pdf_content : list byte := [x25; x50; x44; x46; x2d; x31].

Definition no_json : result pyval :=
  Raise (Exn ValueError (lit "Expecting value")).

(** The knobs: the listing, the page behind the detail link, what the
    summarisation endpoint answers and the status the chat endpoint
    answers with. *)
Definition platform (listing : node) (detail : node)
           (hf_answer : result response) (chat_status : Z) : Platform :=
  {| net := unit;
     requests_get := fun url w =>
       if str_eqb url SEBI_URL
       then (Ok (Response 200 (lit "listing") [] no_json), w)
       else if str_eqb url detail_url
       then (Ok (Response 200 (lit "detail") [] no_json), w)
       else (Ok (Response 200 [] pdf_content no_json), w);
     requests_post := fun url headers payload w =>
       if startswith N.eqb (lit "https://api-inference") url
       then (hf_answer, w)
       else (Ok (Response chat_status (lit "{}") [] no_json), w);
     BeautifulSoup := fun markup =>
       Ok (if str_eqb markup (lit "listing") then listing else detail);
     urljoin := fun base url => Ok (lit "https://www.sebi.gov.in" ++ url);
     urlparse_query := fun url => Ok (after_question_mark url);
     parse_qs := fun q =>
       if startswith N.eqb (lit "file=") q
       then Ok [(lit "file", [skipn 5 q])]
       else Ok [];
     page := option str;
     pdf_pages := fun data => Ok [Some (lit "Page one"); None; Some (lit "Page three")];
     extract_text := fun p => Ok p;
     format_value := fun v => lit "None";
     print_error := fun line => None;
     write_failure := fun text => None |}.

Definition summary_answer (v : pyval) : result response :=
  Ok (Response 200 [] [] (Ok (PList [PDict [(lit "summary_text", v)]]))).

Definition environ : Environ :=
  {| env_HF_API_KEY := Some (lit "hf_key");
     env_HF_MODEL := None;
     env_TELEGRAM_TOKEN := Some (lit "123:abc");
     env_TELEGRAM_CHAT_ID := Some (lit "42") |}.


(** A state to start from: nothing printed or requested yet, and a
    file that can be written. *)
Definition start (X : Platform) (w : net X) (f : file_state) : state X :=
  State w f None [] [].

(** The platform of an ordinary successful run. *)
Definition plain : Platform :=
  platform (listing_page (lit "Test Circular")) detail_page
           (summary_answer (PStr (lit "A short summary."))) 200.



(** A title with a carriage return inside. *)
Definition cr_title : str := lit "Test" ++ [CR] ++ lit "Circular".

Definition with_cr_title : Platform :=
  platform (listing_page cr_title) detail_page
           (summary_answer (PStr (lit "A short summary."))) 200.


(** A detail page that embeds the document in an iframe. *)
Definition with_iframe : Platform :=
  platform (listing_page (lit "Test Circular")) iframe_page
           (summary_answer (PStr (lit "A short summary."))) 200.

(** The chat endpoint refuses the message. *)
Definition rejected : Platform :=
  platform (listing_page (lit "Test Circular")) detail_page
           (summary_answer (PStr (lit "A short summary."))) 403.

(** What reading a state file that is not UTF-8 raises. *)
Definition decode_error : exn :=
  Exn ValueError
      (lit "'utf-8' codec can't decode byte 0xff in position 0: invalid start byte").

(** The platform [X] with a console and a disk that fail as given. *)
Definition failing (X : Platform) (console : str -> option exn)
           (disk : str -> option (exn * str)) : Platform :=
  {| net := net X;
     requests_get := requests_get X;
     requests_post := requests_post X;
     BeautifulSoup := BeautifulSoup X;
     urljoin := urljoin X;
     urlparse_query := urlparse_query X;
     parse_qs := parse_qs X;
     page := page X;
     pdf_pages := pdf_pages X;
     extract_text := extract_text X;
     format_value := format_value X;
     print_error := console;
     write_failure := disk |}.


(** What printing a warning sign on an ASCII console raises. *)
Definition encode_error : exn :=
  Exn ValueError
      (lit "'ascii' codec can't encode character '\u26a0' in position 0: ordinal not in range(128)").

(** A console that takes ASCII lines only. *)
Definition ascii_console (line : str) : option exn :=
  if forallb (fun c => (c <? 128)%N) line then None else Some encode_error.

(** What a full disk raises. *)
Definition disk_full : exn :=
  Exn OSError (lit "[Errno 28] No space left on device").

(** The entry the listing page yields. *)
Definition plain_entry : entry :=
  Entry (lit "05-Jan-2024") (lit "Circular") (lit "Test Circular")
        (Some (lit "https://www.sebi.gov.in/detail.html")).

(** A page without any table. *)
Definition page_without_table : node :=
  Tag (lit "[document]") []
    [Tag (lit "p") [] [NavigableString (lit "Service unavailable")]].

Definition tableless : Platform :=
  platform page_without_table detail_page
           (summary_answer (PStr (lit "A short summary."))) 200.

(** A detail page that embeds nothing. *)
Definition with_bare_detail : Platform :=
  platform (listing_page (lit "Test Circular")) page_without_table
           (summary_answer (PStr (lit "A short summary."))) 200.

(** The summarisation endpoint answers 200 with an object that has no
    [summary_text]. *)
Definition without_summary_text : Platform :=
  platform (listing_page (lit "Test Circular")) detail_page
           (Ok (Response 200 [] []
                   (Ok (PList [PDict [(lit "error", PStr (lit "loading"))]]))))
           200.



(** The plain platform on an ASCII console. *)
Definition plain_on_ascii : Platform :=
  failing plain ascii_console (fun text => None).

(** A console that takes every line and a disk that is full. *)
Definition on_full_disk : Platform :=
  failing plain (fun line => None) (fun text => Some (disk_full, [])).

End Demo.

(* ================================================================== *)
(** * Notions the properties are stated with *)
(* ================================================================== *)

(** ** Escaping *)

Definition reserved (c : char) : bool := char_in c escape_chars.

(** Where input character [i] stands in the output: behind the escaped
    prefix, and behind its own backslash when it is reserved. *)
Definition out_index (text : str) (i : nat) : nat :=
  length (escape_markdown (firstn i text))
  + (if reserved (nth i text 0%N) then 1 else 0).

Fixpoint leading_backslashes (s : str) : nat :=
  match s with
  | [] => 0
  | c :: t => if (c =? backslash)%N then S (leading_backslashes t) else 0
  end.

(** How many backslashes stand immediately before position [k] of [s]. *)
Definition backslashes_before (s : str) (k : nat) : nat :=
  leading_backslashes (rev (firstn k s)).

(** Every character keeps its place in the output, and a reserved one
    is preceded there by exactly one backslash. *)
Definition escaped_by_exactly_one (text : str) : Prop :=
  forall i c,
    nth_error text i = Some c ->
    nth_error (escape_markdown text) (out_index text i) = Some c /\
    (reserved c = true ->
     backslashes_before (escape_markdown text) (out_index text i) = 1).

(** What the escaping does to character [i] of [text], which is [c]. *)
Definition one_backslash_inserted (text : str) (i : nat) (c : char) : Prop :=
  escape_markdown text
  = flat_map (fun c => if reserved c then [backslash; c] else [c]) text
  /\ nth_error (escape_markdown text) (out_index text i) = Some c
  /\ (reserved c = true ->
      nth_error (escape_markdown text) (out_index text i - 1) = Some backslash
      /\ backslashes_before (escape_markdown text) (out_index text i)
         = S (backslashes_before text i))
  /\ (reserved c = false ->
      out_index text i = length (escape_markdown (firstn i text))).

(** Taking the escaping back: a backslash in front of a reserved
    character is dropped, everything else is kept. *)
Fixpoint unescape_markdown (s : str) : str :=
  match s with
  | [] => []
  | c :: t =>
      if (c =? backslash)%N
      then match t with
           | [] => [c]
           | d :: t' =>
               if reserved d then d :: unescape_markdown t'
               else c :: unescape_markdown t
           end
      else c :: unescape_markdown t
  end.

(** ** Surrounding whitespace *)

Definition starts_clean (s : str) : Prop :=
  match s with
  | [] => True
  | c :: _ => isspace c = false
  end.

(** No whitespace at either end. *)
Definition trimmed (s : str) : Prop := starts_clean s /\ starts_clean (rev s).

(** ** The first row of the listing *)

(** The cells the fetcher reads: the [td]s of the first [tr] of the
    [tbody] of the updates table, when all of these are there. *)
Definition first_row_cells (soup : node) : option (list node) :=
  match
    match soup_find (lit "table") [AttrIs (lit "id") (lit "sample_1")] soup with
    | Some t => Some t
    | None => soup_find (lit "table") [ClassIs (lit "table")] soup
    end
  with
  | None => None
  | Some table =>
      match soup_find (lit "tbody") [] table with
      | None => None
      | Some tbody =>
          match soup_find (lit "tr") [] tbody with
          | None => None
          | Some row => Some (find_all (lit "td") row)
          end
      end
  end.

(** The table the fetcher looks for: the one with id [sample_1], or
    else the first of class [table]. *)
Definition updates_table (soup : node) : option node :=
  match soup_find (lit "table") [AttrIs (lit "id") (lit "sample_1")] soup with
  | Some t => Some t
  | None => soup_find (lit "table") [ClassIs (lit "table")] soup
  end.

(** ** Results of the summarizer *)


(** ** Runs *)

Section Notions.

Variable X : Platform.
Variable environ : Environ.

(** A statement leaves a component of the state as it found it. *)
Definition keeps {A B} (proj : state X -> B) (m : M X A) : Prop :=
  forall st, proj (snd (m st)) = proj st.

(** A statement never raises. *)
Definition total {A} (m : M X A) : Prop :=
  forall st, exists a, fst (m st) = Ok a.

(** The requests that post to the chat endpoint. *)
Definition is_notification (c : call) : bool :=
  match c with
  | Post url _ _ => str_eqb url (telegram_url environ)
  | Get _ => false
  end.

Definition notifications (st : state X) : nat :=
  length (filter is_notification (calls st)).

(** The state after the first line of [main]; the state itself when
    the console refuses the line. *)
Definition started (st : state X) : state X :=
  snd (print (rocket ++ lit " Checking SEBI for updates...") st).

(** The state after [main] has announced the entry it fetched; the
    state itself when the console refuses the line. *)
Definition announced (latest : entry) (st : state X) : state X :=
  snd (print (check_mark ++ lit " New update found: " ++ title latest) st).

(** The console takes the two lines [main] prints on its way to the
    state file: the opening one and the one that announces the entry. *)
Definition announces (st : state X) (latest : entry) : Prop :=
  print_error X (rocket ++ lit " Checking SEBI for updates...") = None
  /\ print_error X (check_mark ++ lit " New update found: " ++ title latest)
     = None.

(** The run from [st] has gone through every stage, with the detail
    link, the document address, the text and the summary given, and
    the notifier has returned [True], which leaves the run at [s6],
    about to save the title. *)
Definition notified_through (st : state X) (latest : entry)
           (link pdf_url txt : str) (summary : pyval) (s6 : state X) : Prop :=
  exists s1 last s2 s3 pdf_bytes s4 s5,
    announces st latest
    /\ get_latest_update X (started st) = (Ok (Some latest), s1)
    /\ load_last_update X (announced latest s1) = (Ok last, announced latest s1)
    /\ same_title last (title latest) = false
    /\ detail_link latest = Some link /\ link <> []
    /\ extract_pdf_link_from_page X link (announced latest s1)
       = (Ok (Some pdf_url), s2)
    /\ pdf_url <> []
    /\ download_pdf_bytes X pdf_url s2 = (Ok (Some pdf_bytes), s3)
    /\ pdf_bytes <> []
    /\ extract_text_from_pdf_bytes X pdf_bytes s3 = (Ok txt, s4)
    /\ txt <> []
    /\ summarize_text X environ txt s4 = (Ok summary, s5)
    /\ send_telegram X environ (compose_message X latest summary pdf_url) s5
       = (Ok true, s6).

(** Every stage of the run from [st] yielded a result and the
    notifier returned [True]. *)
Definition notification_confirmed (st : state X) (latest : entry)
           (s6 : state X) : Prop :=
  exists link pdf_url txt summary,
    notified_through st latest link pdf_url txt summary s6.

(** Every stage of the run from [st] to [st'] yielded a result, the
    notifier returned [True] and the title was saved. *)
Definition successful_run (st st' : state X) (latest : entry) : Prop :=
  exists s6,
    notification_confirmed st latest s6
    /\ save_last_update X (title latest) s6 = (Ok tt, st').

(** Whatever the statement raises, the console raised it. *)
Definition raises_from_console {A} (m : M X A) : Prop :=
  forall st e s,
    m st = (Raise e, s) -> exists line, print_error X line = Some e.


(** The console takes every line. *)
Definition console_accepts_all : Prop :=
  forall line, print_error X line = None.


(** The chat endpoint answered the message with status 200. *)
Definition confirmed (message : str) (st st' : state X) : Prop :=
  exists resp,
    requests_post X (telegram_url environ) []
                  (telegram_payload environ (escape_markdown message))
                  (world st)
    = (Ok resp, world st')
    /\ status_code resp = 200%Z.

(** Saving a title and loading it again, from a state in which the
    file can be written. *)
Definition reload (title : str) (st : state X) : result (option str) :=
  fst (load_last_update X (snd (save_last_update X title st))).


(** The file together with what writing it raises. *)
Definition disk (st : state X) : file_state * option exn :=
  (file st, write_error st).

(** Both the token and the chat id are set. *)
Definition has_credentials : bool :=
  truthy (TELEGRAM_TOKEN environ) && truthy (TELEGRAM_CHAT_ID environ).

(** The requests of a complete run, in the order they are made: the
    listing, the detail page, the document, the summarisation when a
    key is configured, the chat message. *)
Definition requests_of_run (latest : entry) (link pdf_url txt : str)
           (summary : pyval) : list call :=
  [Get SEBI_URL; Get link; Get pdf_url]
  ++ (if truthy (HF_API_KEY environ)
      then [Post (hf_url environ) (hf_headers environ) (hf_payload txt)]
      else [])
  ++ [Post (telegram_url environ) []
           (telegram_payload environ
              (escape_markdown (compose_message X latest summary pdf_url)))].


End Notions.

(* ================================================================== *)
(** * Escaping: proofs *)
(* ================================================================== *)

Lemma re_sub_class_app cls tpl (a b : str) :
  re_sub_class cls tpl (a ++ b) = re_sub_class cls tpl a ++ re_sub_class cls tpl b.
Proof.
  induction a as [|c a IH]; simpl; [reflexivity|].
  now rewrite IH, app_assoc.
Qed.

Lemma escape_markdown_app (a b : str) :
  escape_markdown (a ++ b) = escape_markdown a ++ escape_markdown b.
Proof. apply re_sub_class_app. Qed.

Lemma escape_markdown_cons (c : char) (t : str) :
  escape_markdown (c :: t)
  = (if reserved c then [backslash; c] else [c]) ++ escape_markdown t.
Proof. reflexivity. Qed.

Lemma escape_markdown_flat_map (text : str) :
  escape_markdown text
  = flat_map (fun c => if reserved c then [backslash; c] else [c]) text.
Proof.
  induction text as [|c t IH]; [reflexivity|].
  rewrite escape_markdown_cons, IH. reflexivity.
Qed.

Lemma backslash_not_reserved : reserved backslash = false.
Proof. reflexivity. Qed.

Lemma nth_error_split_at (text : str) (i : nat) (c : char) :
  nth_error text i = Some c ->
  text = firstn i text ++ c :: skipn (S i) text /\ nth i text 0%N = c.
Proof.
  revert i; induction text as [|d t IH]; intros [|i] H; simpl in *; try discriminate.
  - injection H as ->. split; reflexivity.
  - destruct (IH _ H) as [E1 E2]. split; [now rewrite <- E1 | exact E2].
Qed.

Lemma leading_backslashes_escaped (pre : str) :
  leading_backslashes (rev (escape_markdown pre)) = leading_backslashes (rev pre).
Proof.
  induction pre as [|p pre IH] using rev_ind; [reflexivity|].
  rewrite escape_markdown_app, !rev_app_distr.
  rewrite escape_markdown_cons. simpl escape_markdown. simpl rev at 3.
  destruct (N.eqb_spec p backslash) as [->|Hp].
  - rewrite backslash_not_reserved. simpl. now rewrite IH.
  - destruct (reserved p); simpl; apply N.eqb_neq in Hp; now rewrite Hp.
Qed.

Lemma escaped_position (text : str) (i : nat) (c : char) :
  nth_error text i = Some c ->
  escape_markdown text
  = escape_markdown (firstn i text)
    ++ (if reserved c then [backslash; c] else [c])
    ++ escape_markdown (skipn (S i) text)
  /\ out_index text i
     = length (escape_markdown (firstn i text)) + (if reserved c then 1 else 0).
Proof.
  intros H. destruct (nth_error_split_at _ _ _ H) as [E1 E2]. split.
  - rewrite E1 at 1. now rewrite escape_markdown_app, escape_markdown_cons.
  - unfold out_index. now rewrite E2.
Qed.

(** C3, as amended. The output is the input with one backslash put in
    front of each reserved character and nothing else changed; every
    character is found again at its place; a reserved one has the
    inserted backslash right before it, and the backslashes standing
    before it are those that stood before it in the input and that one
    more. It is preceded by exactly one backslash when no backslash
    precedes it in the input. *)
Theorem escape_markdown_inserts_one_backslash (text : str) (i : nat) (c : char) :
  nth_error text i = Some c -> one_backslash_inserted text i c.
Proof.
  intros H. destruct (escaped_position _ _ _ H) as [E Ei].
  unfold one_backslash_inserted.
  split; [apply escape_markdown_flat_map|].
  rewrite Ei. set (pre := escape_markdown (firstn i text)) in *.
  split; [|split].
  - rewrite E. destruct (reserved c).
    + rewrite nth_error_app2 by lia.
      replace (length pre + 1 - length pre) with 1 by lia. reflexivity.
    + rewrite nth_error_app2 by lia.
      replace (length pre + 0 - length pre) with 0 by lia. reflexivity.
  - intros R. rewrite R in *. split.
    + rewrite E. rewrite nth_error_app2 by lia.
      replace (length pre + 1 - 1 - length pre) with 0 by lia. reflexivity.
    + unfold backslashes_before. rewrite E.
      rewrite firstn_app.
      replace (length pre + 1 - length pre) with 1 by lia.
      rewrite firstn_all2 by lia. simpl firstn.
      rewrite rev_app_distr. simpl.
      unfold pre. now rewrite leading_backslashes_escaped.
  - intros R. rewrite R. lia.
Qed.

(** The amended statement at the input [\_]. *)
Lemma escape_markdown_inserts_one_backslash_witness :
  nth_error (lit "\_") 1 = Some 95%N /\ one_backslash_inserted (lit "\_") 1 95%N.
Proof.
  split; [reflexivity|].
  apply (escape_markdown_inserts_one_backslash (lit "\_") 1 95%N).
  reflexivity.
Defined.

(** C3 as stated fails on [\_]: the output is [\\_], where two
    backslashes precede the underscore. *)
Lemma escape_markdown_backslash_counterexample :
  escape_markdown (lit "\_") = lit "\\_" /\ ~ escaped_by_exactly_one (lit "\_").
Proof.
  split; [reflexivity|].
  intros H. destruct (H 1 95%N eq_refl) as [_ H1].
  specialize (H1 eq_refl). vm_compute in H1. discriminate.
Qed.

(* ================================================================== *)
(** * What each statement leaves alone *)
(* ================================================================== *)

Create HintDb frame.

Section Frames.

Variable X : Platform.
Variable environ : Environ.

Lemma bind_eq {A B} (m : M X A) (k : A -> M X B) (st : state X) :
  bind m k st
  = match m st with
    | (Ok a, st') => k a st'
    | (Raise e, st') => (Raise e, st')
    end.
Proof. reflexivity. Qed.

Lemma bind_print {B} (line : str) (k : unit -> M X B) (st : state X) :
  bind (print line) k st
  = match print_error X line with
    | Some e => (Raise e, st)
    | None => k tt (snd (print line st))
    end.
Proof. rewrite bind_eq. unfold print. now destruct (print_error X line). Qed.

Lemma bind_print_ok {B} (line : str) (k : unit -> M X B) (st : state X) :
  print_error X line = None ->
  bind (print line) k st = k tt (snd (print line st)).
Proof. intros E. now rewrite bind_print, E. Qed.

Lemma printed_stdout (line : str) (st : state X) :
  print_error X line = None ->
  stdout (snd (print line st)) = stdout st ++ [line].
Proof. intros E. unfold print. now rewrite E. Qed.

Lemma keeps_ret {A B} (proj : state X -> B) (a : A) : keeps X proj (ret a).
Proof. intros st. reflexivity. Qed.

Lemma keeps_raise {A B} (proj : state X -> B) (e : exn) :
  keeps X proj (@raise X A e).
Proof. intros st. reflexivity. Qed.

Lemma keeps_lift {A B} (proj : state X -> B) (r : result A) :
  keeps X proj (lift r).
Proof. intros st. reflexivity. Qed.

Lemma keeps_bind {A B C} (proj : state X -> B) (m : M X A) (k : A -> M X C) :
  keeps X proj m -> (forall a, keeps X proj (k a)) -> keeps X proj (bind m k).
Proof.
  intros Hm Hk st. rewrite bind_eq. specialize (Hm st).
  destruct (m st) as [[a|e] s1]; simpl in *; [rewrite Hk|]; exact Hm.
Qed.

Lemma keeps_try_except {A B} (proj : state X -> B) (body : M X A)
      (handler : exn -> M X A) :
  keeps X proj body -> (forall e, keeps X proj (handler e)) ->
  keeps X proj (try_except body handler).
Proof.
  intros Hm Hk st. unfold try_except. specialize (Hm st).
  destruct (body st) as [[a|e] s1]; simpl in *; [|rewrite Hk]; exact Hm.
Qed.

(** The console does not touch the file, the requests or the network. *)
Lemma print_keeps_file line : keeps X file (print line).
Proof. intros st. unfold print. now destruct (print_error X line). Qed.

Lemma print_keeps_calls line : keeps X calls (print line).
Proof. intros st. unfold print. now destruct (print_error X line). Qed.

Lemma print_keeps_notifications line :
  keeps X (notifications X environ) (print line).
Proof. intros st. unfold print. now destruct (print_error X line). Qed.

(** Requests do not touch the file. *)
Lemma http_get_keeps_file url : keeps X file (http_get url).
Proof.
  intros st. unfold http_get. now destruct (requests_get X url (world st)).
Qed.

Lemma http_post_keeps_file url headers payload :
  keeps X file (http_post url headers payload).
Proof.
  intros st. unfold http_post.
  now destruct (requests_post X url headers payload (world st)).
Qed.

Lemma notifications_app (st : state X) w f we out (c : call) :
  notifications X environ (State w f we out (calls st ++ [c]))
  = notifications X environ st + (if is_notification environ c then 1 else 0).
Proof.
  unfold notifications. simpl calls. rewrite filter_app, length_app. simpl.
  now destruct (is_notification environ c).
Qed.

(** A GET is no notification. *)
Lemma http_get_keeps_notifications url :
  keeps X (notifications X environ) (http_get url).
Proof.
  intros st. unfold http_get. destruct (requests_get X url (world st)).
  simpl snd. rewrite notifications_app. simpl. lia.
Qed.

(** The two endpoints have different addresses. *)
Lemma hf_url_is_not_telegram_url :
  str_eqb (hf_url environ) (telegram_url environ) = false.
Proof. reflexivity. Qed.

Lemma hf_post_keeps_notifications headers payload :
  keeps X (notifications X environ) (http_post (hf_url environ) headers payload).
Proof.
  intros st. unfold http_post.
  destruct (requests_post X (hf_url environ) headers payload (world st)).
  simpl snd. rewrite notifications_app. unfold is_notification.
  rewrite hf_url_is_not_telegram_url. lia.
Qed.

Lemma print_ok (line : str) (st : state X) :
  print_error X line = None ->
  print line st
  = (Ok tt, State (world st) (file st) (write_error st)
                  (stdout st ++ [line]) (calls st)).
Proof. intros E. unfold print. now rewrite E. Qed.

Lemma print_file (line : str) (st : state X) :
  file (snd (print line st)) = file st.
Proof. unfold print. now destruct (print_error X line). Qed.


Lemma print_calls (line : str) (st : state X) :
  calls (snd (print line st)) = calls st.
Proof. unfold print. now destruct (print_error X line). Qed.

End Frames.

(** One [print] at the head of a run: either the console refuses the
    line, or the run goes on. *)
Ltac print_step_in H :=
  rewrite bind_print in H;
  match type of H with
  | context [match print_error ?X ?l with _ => _ end] =>
      destruct (print_error X l) eqn:?
  end.

Ltac print_step :=
  rewrite bind_print;
  match goal with
  | |- context [match print_error ?X ?l with _ => _ end] =>
      destruct (print_error X l) eqn:?
  end.

#[global] Hint Resolve print_keeps_file print_keeps_calls
  print_keeps_notifications http_get_keeps_file http_post_keeps_file
  http_get_keeps_notifications hf_post_keeps_notifications : frame.

(** Walk through a statement, one construct at a time. *)
Ltac frame :=
  repeat first
    [ progress cbv zeta
    | apply keeps_ret
    | apply keeps_raise
    | apply keeps_lift
    | apply keeps_bind; [|intro]
    | apply keeps_try_except; [|intro]
    | match goal with
      | |- keeps _ _ (match ?x with _ => _ end) => destruct x
      end
    | solve [auto with frame] ].

Section StageFrames.

Variable X : Platform.
Variable environ : Environ.

Lemma get_latest_update_keeps_file : keeps X file (get_latest_update X).
Proof. unfold get_latest_update. frame. Qed.

Lemma get_latest_update_keeps_notifications :
  keeps X (notifications X environ) (get_latest_update X).
Proof. unfold get_latest_update. frame. Qed.

Lemma extract_pdf_link_keeps_file url :
  keeps X file (extract_pdf_link_from_page X url).
Proof. unfold extract_pdf_link_from_page. frame. Qed.

Lemma extract_pdf_link_keeps_notifications url :
  keeps X (notifications X environ) (extract_pdf_link_from_page X url).
Proof. unfold extract_pdf_link_from_page. frame. Qed.

Lemma download_pdf_bytes_keeps_file url :
  keeps X file (download_pdf_bytes X url).
Proof. unfold download_pdf_bytes. frame. Qed.

Lemma download_pdf_bytes_keeps_notifications url :
  keeps X (notifications X environ) (download_pdf_bytes X url).
Proof. unfold download_pdf_bytes. frame. Qed.

Lemma extract_text_keeps_file data :
  keeps X file (extract_text_from_pdf_bytes X data).
Proof. unfold extract_text_from_pdf_bytes. frame. Qed.

Lemma extract_text_keeps_notifications data :
  keeps X (notifications X environ) (extract_text_from_pdf_bytes X data).
Proof. unfold extract_text_from_pdf_bytes. frame. Qed.

Lemma extract_text_keeps_calls data :
  keeps X calls (extract_text_from_pdf_bytes X data).
Proof. unfold extract_text_from_pdf_bytes. frame. Qed.

Lemma summarize_text_keeps_file txt :
  keeps X file (summarize_text X environ txt).
Proof. unfold summarize_text. frame. Qed.

Lemma summarize_text_keeps_notifications txt :
  keeps X (notifications X environ) (summarize_text X environ txt).
Proof. unfold summarize_text. frame. Qed.

Lemma send_telegram_keeps_file message :
  keeps X file (send_telegram X environ message).
Proof. unfold send_telegram. frame. Qed.

Lemma load_last_update_keeps_state (st : state X) :
  snd (load_last_update X st) = st.
Proof. unfold load_last_update. now destruct (file st). Qed.

End StageFrames.

(* ================================================================== *)
(** * Taking a run apart *)
(* ================================================================== *)

Section Inversion.

Variable X : Platform.

Lemma bind_lift {A B} (r : result A) (k : A -> M X B) (st : state X) :
  bind (lift r) k st
  = match r with
    | Ok a => k a st
    | Raise e => (Raise e, st)
    end.
Proof. rewrite bind_eq. unfold lift. now destruct r. Qed.

Lemma try_except_inv {A} (body : M X A) (handler : exn -> M X A) st r st' :
  try_except body handler st = (r, st') ->
  (exists a, body st = (Ok a, st') /\ r = Ok a)
  \/ (exists e s, body st = (Raise e, s) /\ handler e s = (r, st')).
Proof.
  unfold try_except. destruct (body st) as [[a|e] s]; intros H.
  - left. exists a. now inversion H.
  - right. now exists e, s.
Qed.

Lemma http_get_inv url (st : state X) r st' :
  http_get url st = (r, st') ->
  requests_get X url (world st) = (r, world st')
  /\ calls st' = calls st ++ [Get url]
  /\ file st' = file st /\ write_error st' = write_error st
  /\ stdout st' = stdout st.
Proof.
  unfold http_get. destruct (requests_get X url (world st)) as [r0 w].
  intros H. inversion H; subst. simpl. repeat split.
Qed.

Lemma http_post_inv url headers payload (st : state X) r st' :
  http_post url headers payload st = (r, st') ->
  requests_post X url headers payload (world st) = (r, world st')
  /\ calls st' = calls st ++ [Post url headers payload]
  /\ file st' = file st /\ write_error st' = write_error st
  /\ stdout st' = stdout st.
Proof.
  unfold http_post.
  destruct (requests_post X url headers payload (world st)) as [r0 w].
  intros H. inversion H; subst. simpl. repeat split.
Qed.

Lemma truthy_true (o : option str) :
  truthy o = true -> exists l, o = Some l /\ l <> [] /\ or_empty o = l.
Proof.
  destruct o as [[|c l]|]; simpl; try discriminate.
  intros _. exists (c :: l). repeat split. discriminate.
Qed.

Lemma nonempty_true (s : str) : nonempty s = true -> s <> [].
Proof. destruct s; simpl; [discriminate|]. intros _; discriminate. Qed.

Lemma list_eqb_refl {A} (eqb : A -> A -> bool) :
  (forall a, eqb a a = true) -> forall l, list_eqb eqb l l = true.
Proof.
  intros R l. induction l as [|a l IH]; simpl; [reflexivity|].
  now rewrite R, IH.
Qed.

Lemma str_eqb_refl (s : str) : str_eqb s s = true.
Proof. apply list_eqb_refl, N.eqb_refl. Qed.

End Inversion.

(** One step of a run recorded in hypothesis [H]. *)
Ltac run_step H :=
  match type of H with
  | bind (print _) _ _ = _ => rewrite bind_print in H
  | bind (lift ?r) _ _ = _ => rewrite bind_lift in H; destruct r eqn:?
  | bind _ _ _ = _ => rewrite bind_eq in H
  | (match ?x with _ => _ end) _ = _ => destruct x eqn:?
  | (match ?x with _ => _ end) = _ => destruct x eqn:?
  | _ => progress cbv zeta in H
  end.

Section Runs.

Variable X : Platform.
Variable environ : Environ.

(** The notifier answers [True] only after the endpoint's 200, having
    made that one request. *)
Lemma send_telegram_true message (st st' : state X) :
  send_telegram X environ message st = (Ok true, st') ->
  confirmed X environ message st st'
  /\ calls st'
     = calls st ++ [Post (telegram_url environ) []
                         (telegram_payload environ (escape_markdown message))]
  /\ notifications X environ st' = S (notifications X environ st).
Proof.
  unfold send_telegram. intros H.
  destruct (negb (truthy (TELEGRAM_TOKEN environ))
            || negb (truthy (TELEGRAM_CHAT_ID environ))).
  { rewrite bind_print in H. destruct (print_error X _); discriminate H. }
  apply try_except_inv in H. destruct H as [(a & H & Ha)|(e & s & _ & H)].
  2:{ rewrite bind_print in H. destruct (print_error X _); discriminate H. }
  cbv zeta in H. rewrite bind_eq in H.
  destruct (http_post (telegram_url environ) []
              (telegram_payload environ (escape_markdown message)) st)
    as [[resp|e] s1] eqn:Hp; [|discriminate H].
  apply http_post_inv in Hp. destruct Hp as (Hw & Hc & _).
  destruct (status_code resp =? 200)%Z eqn:Hs.
  - rewrite bind_print in H.
    destruct (print_error X _) eqn:P; [discriminate H|].
    rewrite (print_ok X _ s1 P) in H. inversion H; subst st'. simpl.
    split; [|split].
    + exists resp. split; [exact Hw | now apply Z.eqb_eq].
    + exact Hc.
    + unfold notifications. simpl. rewrite Hc, filter_app, length_app.
      simpl. rewrite str_eqb_refl. simpl. lia.
  - exfalso. repeat run_step H; try discriminate H.
    inversion H; subst. discriminate Ha.
Qed.

Lemma save_last_update_ok title (st st' : state X) :
  save_last_update X title st = (Ok tt, st') ->
  file st' = Stored title /\ calls st' = calls st
  /\ write_error st' = None /\ world st' = world st.
Proof.
  unfold save_last_update. destruct (write_error st) eqn:E;
    [discriminate|]. destruct (write_failure X title) as [[e l]|]; intros H;
    inversion H; subst; simpl; auto.
Qed.

(** [main], outcome by outcome: either every stage delivered and the
    title is saved, or the state file is as it was, or the write
    failed after the notifier had returned [True]. *)
Lemma main_cases (st : state X) :
  match fst (main X environ st) with
  | Ok Notified =>
      exists latest,
        successful_run X environ st (snd (main X environ st)) latest
  | Ok _ => file (snd (main X environ st)) = file st
  | Raise e =>
      file (snd (main X environ st)) = file st
      \/ exists latest s6,
          notification_confirmed X environ st latest s6
          /\ save_last_update X (title latest) s6
             = (Raise e, snd (main X environ st))
  end.
Proof.
  unfold main. print_step; [simpl; now left|].
  change (snd (print _ st)) with (started X st).
  assert (F0 : file (started X st) = file st) by apply print_file.
  rewrite bind_eq.
  pose proof (get_latest_update_keeps_file X (started X st)) as K1.
  destruct (get_latest_update X (started X st)) as [[[latest|]|e] s1] eqn:E1;
    simpl in K1; [| | simpl; left; congruence].
  2:{ print_step;
        [simpl; left; congruence|].
      simpl. rewrite print_file. congruence. }
  print_step; [simpl; left; congruence|].
  change (snd (print _ s1)) with (announced X latest s1).
  assert (F1 : file (announced X latest s1) = file st).
  { unfold announced. rewrite print_file. congruence. }
  set (s1' := announced X latest s1) in *.
  rewrite bind_eq.
  pose proof (load_last_update_keeps_state X s1') as KL.
  destruct (load_last_update X s1') as [[last|e] sL] eqn:EL;
    simpl in KL; subst sL; [| simpl; left; exact F1].
  destruct (same_title last (title latest)) eqn:ES.
  { print_step;
      [simpl; left; exact F1|].
    simpl. rewrite print_file. exact F1. }
  destruct (truthy (detail_link latest)) eqn:ET; cbn [negb].
  2:{ print_step;
        [simpl; left; exact F1|].
      simpl. rewrite print_file. exact F1. }
  destruct (truthy_true _ ET) as (link & Elink & Hlink & Eor). rewrite Eor.
  rewrite bind_eq.
  pose proof (extract_pdf_link_keeps_file X link s1') as K2.
  destruct (extract_pdf_link_from_page X link s1') as [[pdf_url|e] s2] eqn:E2;
    simpl in K2; [| simpl; left; congruence].
  destruct (truthy pdf_url) eqn:EP; cbn [negb].
  2:{ print_step;
        [simpl; left; congruence|].
      simpl. rewrite print_file. congruence. }
  destruct (truthy_true _ EP) as (url & -> & Hurl & Eor2). rewrite Eor2.
  rewrite bind_eq.
  pose proof (download_pdf_bytes_keeps_file X url s2) as K3.
  destruct (download_pdf_bytes X url s2) as [[pdf_bytes|e] s3] eqn:E3;
    simpl in K3; [| simpl; left; congruence].
  destruct pdf_bytes as [[|b bs]|]; cbn [or_empty];
    [simpl; congruence | | simpl; congruence].
  rewrite bind_eq.
  pose proof (extract_text_keeps_file X (b :: bs) s3) as K4.
  destruct (extract_text_from_pdf_bytes X (b :: bs) s3) as [[txt|e] s4] eqn:E4;
    simpl in K4; [| simpl; left; congruence].
  destruct (nonempty txt) eqn:EN; cbn [negb]; [| simpl; congruence].
  rewrite bind_eq.
  pose proof (summarize_text_keeps_file X environ txt s4) as K5.
  destruct (summarize_text X environ txt s4) as [[summary|e] s5] eqn:E5;
    simpl in K5; [| simpl; left; congruence].
  cbv zeta. rewrite bind_eq.
  pose proof (send_telegram_keeps_file X environ
                (compose_message X latest summary url) s5) as K6.
  destruct (send_telegram X environ (compose_message X latest summary url) s5)
    as [[[|]|e] s6] eqn:E6; simpl in K6;
    [| simpl; congruence | simpl; left; congruence].
  rewrite bind_eq.
  assert (N : notification_confirmed X environ st latest s6).
  { exists link, url, txt, summary.
    exists s1, last, s2, s3, (b :: bs), s4, s5.
    fold s1'. unfold announces.
    repeat split; auto using nonempty_true; try discriminate. }
  destruct (save_last_update X (title latest) s6) as [[[]|e] s7] eqn:E7.
  - simpl. exists latest, s6. now split.
  - simpl. right. exists latest, s6. now split.
Qed.

Lemma successful_run_stores_title (st st' : state X) latest :
  successful_run X environ st st' latest -> file st' = Stored (title latest).
Proof. intros (s6 & _ & E). now apply save_last_update_ok in E. Qed.

(** C1. The state file is written only in a run in which every stage
    delivered and the notifier returned [True], which it does only on
    the endpoint's status 200. A run that ends notified has stored the
    title of the entry fetched; a run that ends with any other outcome,
    be it an empty stage or an unconfirmed notification, leaves the
    file as it was; and whenever the file is not as it was, exception
    or not, the notifier had returned [True] and the change is the one
    the save made. *)
Theorem state_file_written_only_after_confirmed_notification (st : state X) :
  (fst (main X environ st) = Ok Notified ->
   exists latest,
     successful_run X environ st (snd (main X environ st)) latest
     /\ file (snd (main X environ st)) = Stored (title latest))
  /\ (forall o,
         fst (main X environ st) = Ok o -> o <> Notified ->
         file (snd (main X environ st)) = file st)
  /\ (file (snd (main X environ st)) <> file st ->
      exists latest s6,
        notification_confirmed X environ st latest s6
        /\ snd (main X environ st)
           = snd (save_last_update X (title latest) s6))
  /\ (forall message s s',
        send_telegram X environ message s = (Ok true, s') ->
        confirmed X environ message s s').
Proof.
  pose proof (main_cases st) as C. split; [|split; [|split]].
  - intros E. rewrite E in C. destruct C as [latest R].
    exists latest. split; [exact R|].
    now apply successful_run_stores_title with (st := st).
  - intros o E NE. rewrite E in C. destruct o; try exact C. now elim NE.
  - intros D. destruct (fst (main X environ st)) as [o|e].
    + destruct o; try (now elim D).
      destruct C as (latest & s6 & N & S).
      exists latest, s6. split; [exact N|]. now rewrite S.
    + destruct C as [C|(latest & s6 & N & S)]; [now elim D|].
      exists latest, s6. split; [exact N|]. now rewrite S.
  - intros message s s' H. now apply send_telegram_true in H.
Qed.

End Runs.

(* ================================================================== *)
(** * Stripping *)
(* ================================================================== *)

Lemma lstrip_starts_clean (s : str) : starts_clean (lstrip s).
Proof.
  induction s as [|c t IH]; simpl; [exact I|].
  destruct (isspace c) eqn:E; [exact IH | exact E].
Qed.

Lemma lstrip_id (s : str) : starts_clean s -> lstrip s = s.
Proof. destruct s as [|c t]; simpl; [reflexivity|]. now intros ->. Qed.

Lemma lstrip_suffix (s : str) : exists p, s = p ++ lstrip s.
Proof.
  induction s as [|c t [p IH]]; simpl.
  - now exists [].
  - destruct (isspace c).
    + exists (c :: p). simpl. now rewrite <- IH.
    + now exists [].
Qed.

Lemma rstrip_prefix (s : str) : exists q, s = rstrip s ++ q.
Proof.
  unfold rstrip. destruct (lstrip_suffix (rev s)) as [p E].
  exists (rev p). rewrite <- rev_app_distr, <- E. now rewrite rev_involutive.
Qed.

Lemma rstrip_starts_clean (s : str) : starts_clean s -> starts_clean (rstrip s).
Proof.
  intros H. destruct (rstrip_prefix s) as [q E].
  destruct (rstrip s) as [|c r]; [exact I|].
  rewrite E in H. exact H.
Qed.

Lemma strip_trimmed (s : str) : trimmed (strip s).
Proof.
  unfold trimmed, strip. split.
  - apply rstrip_starts_clean, lstrip_starts_clean.
  - unfold rstrip. rewrite rev_involutive. apply lstrip_starts_clean.
Qed.

Lemma strip_id (s : str) : trimmed s -> strip s = s.
Proof.
  intros [H1 H2]. unfold strip, rstrip.
  rewrite (lstrip_id s H1), (lstrip_id _ H2). apply rev_involutive.
Qed.

Lemma strip_id_iff (s : str) : strip s = s <-> trimmed s.
Proof.
  split; [|apply strip_id]. intros E. rewrite <- E. apply strip_trimmed.
Qed.

Lemma starts_clean_app (a b : str) :
  a <> [] -> starts_clean a -> starts_clean (a ++ b).
Proof. destruct a; simpl; [congruence | auto]. Qed.

Lemma concat_trimmed (parts : list str) :
  Forall (fun x => x <> [] /\ trimmed x) parts -> trimmed (concat parts).
Proof.
  induction 1 as [|x l [Hx [Hx1 Hx2]] _ [IH1 IH2]]; simpl.
  - split; exact I.
  - split.
    + now apply starts_clean_app.
    + rewrite rev_app_distr. destruct (rev (concat l)) as [|c r] eqn:E.
      * exact Hx2.
      * simpl. exact IH2.
Qed.

Lemma stripped_parts (l : list str) :
  Forall (fun x => x <> [] /\ trimmed x) (filter nonempty (map strip l)).
Proof.
  induction l as [|x l IH]; simpl; [constructor|].
  destruct (nonempty (strip x)) eqn:E; [|exact IH].
  constructor; [|exact IH]. split.
  - destruct (strip x); [discriminate E | discriminate].
  - apply strip_trimmed.
Qed.

(** What [get_text(strip=True)] returns has no whitespace at its ends. *)
Lemma get_text_strip_trimmed (n : node) : trimmed (get_text_strip n).
Proof. apply concat_trimmed, stripped_parts. Qed.

Lemma universal_newlines_id (s : str) :
  ~ In CR s -> universal_newlines s = s.
Proof.
  induction s as [|c t IH]; simpl; [reflexivity|].
  intros H. destruct (N.eqb_spec c CR) as [->|_].
  - elim H. now left.
  - rewrite IH; [reflexivity|]. intros Hin. apply H. now right.
Qed.

(* ================================================================== *)
(** * The listing fetcher *)
(* ================================================================== *)

Section Listing.

Variable X : Platform.
Variable environ : Environ.


(** A [try] that starts with a GET and then only computes and
    prints has made that one request, whatever happened. *)
Lemma try_get_calls {A} url (k : response -> M X A) (h : exn -> M X A) :
  (forall r, keeps X calls (k r)) -> (forall e, keeps X calls (h e)) ->
  forall st, calls (snd (try_except (bind (http_get url) k) h st))
             = calls st ++ [Get url].
Proof.
  intros Hk Hh st. unfold try_except. rewrite bind_eq.
  destruct (http_get url st) as [[resp|e] s] eqn:Hg;
    apply http_get_inv in Hg; destruct Hg as (_ & Hc & _).
  - specialize (Hk resp s). destruct (k resp s) as [[a|e0] s'']; simpl in *.
    + congruence.
    + rewrite Hh. congruence.
  - rewrite Hh. exact Hc.
Qed.

Lemma get_latest_update_calls (st : state X) :
  calls (snd (get_latest_update X st)) = calls st ++ [Get SEBI_URL].
Proof.
  unfold get_latest_update. apply try_get_calls; intros; frame.
Qed.



End Listing.


(* ================================================================== *)
(** * The state file across runs *)
(* ================================================================== *)

Section Tracking.

Variable X : Platform.
Variable environ : Environ.

(** Saving stores the title as it is; loading hands back the stored
    characters with every carriage return, alone or before a line
    feed, read as a line feed, and stripped. *)
Lemma reload_eq (title : str) (st : state X) :
  write_error st = None -> write_failure X title = None ->
  reload X title st = Ok (Some (strip (universal_newlines title))).
Proof.
  intros W F. unfold reload, save_last_update, load_last_update.
  rewrite W, F. reflexivity.
Qed.

(** A write that fails has replaced the file: what is loaded next is
    read off what the write left. *)
Lemma reload_after_failed_write (title : str) (st : state X) e remains :
  write_error st = None -> write_failure X title = Some (e, remains) ->
  save_last_update X title st
  = (Raise e, State (world st) (Stored remains) None (stdout st) (calls st))
  /\ reload X title st = Ok (Some (strip (universal_newlines remains))).
Proof.
  intros W F. unfold reload, save_last_update, load_last_update.
  rewrite W, F. split; reflexivity.
Qed.

Lemma notifications_started (st : state X) :
  notifications X environ (started X st) = notifications X environ st.
Proof. unfold notifications, started. now rewrite print_calls. Qed.

Lemma notifications_announced latest (st : state X) :
  notifications X environ (announced X latest st) = notifications X environ st.
Proof. unfold notifications, announced. now rewrite print_calls. Qed.

Ltac kept_by L E :=
  let K := fresh "K" in
  pose proof L as K; rewrite E in K; cbn [snd] in K.

(** A complete run posts one notification. *)
Lemma successful_run_notifies_once (st st' : state X) latest :
  successful_run X environ st st' latest ->
  notifications X environ st' = S (notifications X environ st).
Proof.
  intros (s6 & (link & pdf_url & txt & summary & s1 & last & s2 & s3
                 & pdf_bytes & s4 & s5 & _ & E1 & _ & _ & _ & _ & E2 & _ & E3
                 & _ & E4 & _ & E5 & E6) & E7).
  kept_by (get_latest_update_keeps_notifications X environ (started X st)) E1.
  kept_by (extract_pdf_link_keeps_notifications X environ link
             (announced X latest s1)) E2.
  kept_by (download_pdf_bytes_keeps_notifications X environ pdf_url s2) E3.
  kept_by (extract_text_keeps_notifications X environ pdf_bytes s3) E4.
  kept_by (summarize_text_keeps_notifications X environ txt s4) E5.
  apply send_telegram_true in E6. destruct E6 as (_ & _ & N6).
  apply save_last_update_ok in E7. destruct E7 as (_ & C7 & _).
  rewrite notifications_started in *. rewrite notifications_announced in *.
  unfold notifications at 1. rewrite C7. fold (notifications X environ s6).
  congruence.
Qed.

(** A run that finds the fetched title in the state file stops
    there, the console taking its three lines. *)
Lemma main_already_processed (st : state X) latest s stored :
  announces X st latest ->
  print_error X (info_sign ++ lit " Already processed.") = None ->
  get_latest_update X (started X st) = (Ok (Some latest), s) ->
  file st = Stored stored ->
  strip (universal_newlines stored) = title latest ->
  main X environ st
  = (Ok AlreadyProcessed,
     snd (print (info_sign ++ lit " Already processed.")
                (announced X latest s))).
Proof.
  intros [P0 P1] P2 Eg Ef Es. unfold main. rewrite bind_print, P0.
  change (snd (print _ st)) with (started X st).
  rewrite bind_eq, Eg. rewrite bind_print, P1.
  change (snd (print _ s)) with (announced X latest s).
  rewrite bind_eq.
  assert (F : file (announced X latest s) = Stored stored).
  { kept_by (get_latest_update_keeps_file X (started X st)) Eg.
    unfold announced. rewrite print_file, K. unfold started.
    rewrite print_file. exact Ef. }
  unfold load_last_update at 1. rewrite F.
  unfold same_title. rewrite Es, str_eqb_refl.
  rewrite bind_print, P2. reflexivity.
Qed.

End Tracking.

(* ================================================================== *)
(** * The stages one by one *)
(* ================================================================== *)

Section Stages.

Variable X : Platform.
Variable environ : Environ.

(** A [try] that starts with a POST and then only computes and prints
    has made that one request. *)
Lemma try_post_calls {A} url headers payload
      (k : response -> M X A) (h : exn -> M X A) :
  (forall r, keeps X calls (k r)) -> (forall e, keeps X calls (h e)) ->
  forall st,
    calls (snd (try_except (bind (http_post url headers payload) k) h st))
    = calls st ++ [Post url headers payload].
Proof.
  intros Hk Hh st. unfold try_except. rewrite bind_eq.
  destruct (http_post url headers payload st) as [[resp|e] s] eqn:Hp;
    apply http_post_inv in Hp; destruct Hp as (_ & Hc & _).
  - specialize (Hk resp s). destruct (k resp s) as [[a|e0] s'']; simpl in *.
    + congruence.
    + rewrite Hh. congruence.
  - rewrite Hh. exact Hc.
Qed.

(** ** Summarizer *)

(** C6. With a key configured the summarizer makes one request, and
    its payload carries the first 2000 characters of the text: all of
    a text that is no longer, and exactly 2000 characters, a prefix,
    of a longer one. *)
Theorem summarizer_submits_first_2000_characters (txt : str) (st : state X) :
  truthy (HF_API_KEY environ) = true ->
  calls (snd (summarize_text X environ txt st))
  = calls st ++ [Post (hf_url environ) (hf_headers environ)
                      (PDict [(lit "inputs", PStr (firstn 2000 txt))])]
  /\ (2000 < length txt ->
      length (firstn 2000 txt) = 2000
      /\ txt = firstn 2000 txt ++ skipn 2000 txt)
  /\ (length txt <= 2000 -> firstn 2000 txt = txt).
Proof.
  intros K. split; [|split].
  - unfold summarize_text. rewrite K. cbn [negb]. cbv zeta.
    unfold hf_payload. apply try_post_calls; intros; frame.
  - intros L. split; [rewrite length_firstn; lia|].
    symmetry. apply firstn_skipn.
  - intros L. now apply firstn_all2.
Qed.



End Stages.

(** C6 on a text of 2001 characters. *)
Lemma summarizer_submits_first_2000_characters_witness :
  truthy (HF_API_KEY Demo.environ) = true
  /\ calls (snd (summarize_text Demo.plain Demo.environ (repeat 120%N 2001)
                   (Demo.start Demo.plain tt Missing)))
     = [Post (hf_url Demo.environ) (hf_headers Demo.environ)
             (PDict [(lit "inputs", PStr (repeat 120%N 2000))])].
Proof.
  split; [reflexivity|].
  destruct (summarizer_submits_first_2000_characters Demo.plain Demo.environ
              (repeat 120%N 2001) (Demo.start Demo.plain tt Missing) eq_refl)
    as [H _].
  rewrite H. vm_compute. reflexivity.
Defined.


Section MoreStages.

Variable X : Platform.
Variable environ : Environ.

(** ** Document locator *)

(** C7. When the reference found on the detail page parses and its
    query has a [file] parameter, the locator returns the first value
    of that parameter as [parse_qs] decoded it, and nothing is joined;
    when the query has no [file] parameter, it returns the reference
    joined to the address of the detail page. *)
Theorem locator_returns_file_parameter_or_joined_reference
        (detail_url : str) (st : state X) resp w soup raw q query :
  requests_get X detail_url (world st) = (Ok resp, w) ->
  BeautifulSoup X (text resp) = Ok soup ->
  raw_url_of soup = Ok (Some raw) ->
  raw <> [] ->
  urlparse_query X raw = Ok q ->
  parse_qs X q = Ok query ->
  (forall v more,
      lookup (lit "file") query = Some (v :: more) ->
      fst (extract_pdf_link_from_page X detail_url st) = Ok (Some v))
  /\ (lookup (lit "file") query = None ->
      forall u,
        urljoin X detail_url raw = Ok u ->
        fst (extract_pdf_link_from_page X detail_url st) = Ok (Some u)).
Proof.
  intros Hreq Hsoup Hraw Hne Hq Hqs.
  assert (E : extract_pdf_link_from_page X detail_url st
              = try_except
                  (match lookup (lit "file") query with
                   | Some values =>
                       match values with
                       | v :: _ => ret (Some v)
                       | [] => raise (Exn IndexError (lit "list index out of range"))
                       end
                   | None =>
                       bind (lift (urljoin X detail_url raw))
                            (fun url => ret (Some url))
                   end)
                  (fun e =>
                     bind (print (warning ++ lit " Error extracting PDF link: "
                                  ++ exn_str e)) (fun _ => ret None))
                  (State w (file st) (write_error st) (stdout st)
                         (calls st ++ [Get detail_url]))).
  { unfold extract_pdf_link_from_page, try_except. rewrite bind_eq.
    unfold http_get. rewrite Hreq. rewrite bind_lift, Hsoup, bind_lift, Hraw.
    destruct raw as [|c raw']; [congruence|]. cbn [truthy negb].
    rewrite bind_lift, Hq, bind_lift, Hqs. reflexivity. }
  rewrite E. unfold try_except. split.
  - intros v more L. rewrite L. reflexivity.
  - intros L u Hu. rewrite L, bind_lift, Hu. reflexivity.
Qed.

(** ** Text extractor *)


Lemma page_texts_raise (pages : list (page X)) :
  Exists (fun p => exists e, extract_text X p = Raise e) pages ->
  exists e, page_texts X pages = Raise e.
Proof.
  induction 1 as [p ps [e Hp]|p ps _ [e IH]]; simpl.
  - rewrite Hp. eauto.
  - destruct (extract_text X p); [|eauto]. rewrite IH. eauto.
Qed.




(** ** Exceptions *)

Lemma console_try_except {A} (body : M X A) (handler : exn -> M X A) :
  (forall e, raises_from_console X (handler e)) ->
  raises_from_console X (try_except body handler).
Proof.
  intros H st e s. unfold try_except.
  destruct (body st) as [[a|e0] s0]; [discriminate | apply H].
Qed.

Lemma console_print_ret {A} (line : str) (a : A) :
  raises_from_console X (bind (print line) (fun _ => ret a)).
Proof.
  intros st e s H. rewrite bind_print in H.
  destruct (print_error X line) eqn:P; [|discriminate H].
  inversion H; subst. now exists line.
Qed.

(** Each of the six stages catches what is raised inside it, and
    prints in its handler: what leaves a stage, the console raised. *)
Lemma stages_raise_from_console :
  raises_from_console X (get_latest_update X)
  /\ (forall url, raises_from_console X (extract_pdf_link_from_page X url))
  /\ (forall url, raises_from_console X (download_pdf_bytes X url))
  /\ (forall data, raises_from_console X (extract_text_from_pdf_bytes X data))
  /\ (forall txt, raises_from_console X (summarize_text X environ txt))
  /\ (forall message, raises_from_console X (send_telegram X environ message)).
Proof.
  repeat split; intros;
    try (apply console_try_except; intros; apply console_print_ret).
  - unfold summarize_text. destruct (negb _).
    + intros st e s H. discriminate H.
    + apply console_try_except. intros e st e0 s H. discriminate H.
  - unfold send_telegram. destruct (_ || _).
    + apply console_print_ret.
    + apply console_try_except; intros; apply console_print_ret.
Qed.

Lemma console_total {A} (m : M X A) :
  console_accepts_all X -> raises_from_console X m -> total X m.
Proof.
  intros C R st. destruct (m st) as [[a|e] s] eqn:E; [now exists a|].
  destruct (R st e s E) as [line P]. rewrite C in P. discriminate P.
Qed.

(** On a console that takes every line, no stage raises. *)
Lemma stages_never_raise :
  console_accepts_all X ->
  total X (get_latest_update X)
  /\ (forall url, total X (extract_pdf_link_from_page X url))
  /\ (forall url, total X (download_pdf_bytes X url))
  /\ (forall data, total X (extract_text_from_pdf_bytes X data))
  /\ (forall txt, total X (summarize_text X environ txt))
  /\ (forall message, total X (send_telegram X environ message)).
Proof.
  intros C.
  destruct stages_raise_from_console as (R1 & R2 & R3 & R4 & R5 & R6).
  repeat split; intros; apply console_total; auto.
Qed.

(** The state tracker does not: with an entry fetched and announced,
    what reading the state file raises leaves [main], and the process
    ends with status 1. *)
Lemma unreadable_state_file_leaves_main (st : state X) latest s1 e :
  announces X st latest ->
  get_latest_update X (started X st) = (Ok (Some latest), s1) ->
  file st = Unreadable e ->
  main X environ st = (Raise e, announced X latest s1)
  /\ fst (script X environ st) = 1%Z.
Proof.
  intros [P0 P1] Eg Ef.
  assert (Em : main X environ st = (Raise e, announced X latest s1)).
  { unfold main. rewrite bind_print, P0.
    change (snd (print _ st)) with (started X st).
    rewrite bind_eq, Eg. rewrite bind_print, P1.
    change (snd (print _ s1)) with (announced X latest s1).
    rewrite bind_eq.
    assert (F : file (announced X latest s1) = Unreadable e).
    { pose proof (get_latest_update_keeps_file X (started X st)) as K.
      rewrite Eg in K. cbn [snd] in K. unfold announced.
      rewrite print_file, K. unfold started. rewrite print_file. exact Ef. }
    unfold load_last_update at 1. rewrite F. reflexivity. }
  split; [exact Em|]. unfold script. rewrite Em. reflexivity.
Qed.

End MoreStages.

(** C7 on a detail page whose embedded viewer names the document in
    its [file] parameter. *)
Lemma locator_returns_file_parameter_or_joined_reference_witness :
  fst (extract_pdf_link_from_page Demo.plain Demo.detail_url
         (Demo.start Demo.plain tt Missing))
  = Ok (Some (lit "https://example.com/doc.pdf")).
Proof.
  assert (N : lit "/web/viewer.html?file=https://example.com/doc.pdf" <> [])
    by discriminate.
  destruct (locator_returns_file_parameter_or_joined_reference
              Demo.plain Demo.detail_url (Demo.start Demo.plain tt Missing)
              (Response 200 (lit "detail") [] Demo.no_json) tt
              Demo.detail_page
              (lit "/web/viewer.html?file=https://example.com/doc.pdf")
              (lit "file=https://example.com/doc.pdf")
              [(lit "file", [lit "https://example.com/doc.pdf"])]
              eq_refl eq_refl eq_refl N eq_refl eq_refl) as [H _].
  exact (H _ [] eq_refl).
Defined.

(** C4 fails on a state file that cannot be decoded: the listing is
    fetched, reading the file raises, nothing catches it and the
    process ends with status 1. *)
Theorem unreadable_state_file_ends_process_with_status_1 :
  fst (main Demo.plain Demo.environ
         (Demo.start Demo.plain tt (Unreadable Demo.decode_error)))
  = Raise Demo.decode_error
  /\ fst (script Demo.plain Demo.environ
            (Demo.start Demo.plain tt (Unreadable Demo.decode_error)))
     = 1%Z.
Proof. split; reflexivity. Qed.

(** C10 fails on a title with a carriage return inside: saved as it
    is, it is read back with a line feed in its place, which is not
    the title stripped. The title has no whitespace at its ends, so
    the round trip should have been the identity. *)
Theorem reload_turns_carriage_return_into_line_feed :
  file (snd (save_last_update Demo.plain Demo.cr_title
               (Demo.start Demo.plain tt Missing)))
  = Stored Demo.cr_title
  /\ reload Demo.plain Demo.cr_title (Demo.start Demo.plain tt Missing)
     = Ok (Some (lit "Test" ++ [LF] ++ lit "Circular"))
  /\ strip Demo.cr_title = Demo.cr_title
  /\ trimmed Demo.cr_title
  /\ reload Demo.plain Demo.cr_title (Demo.start Demo.plain tt Missing)
     <> Ok (Some (strip Demo.cr_title)).
Proof.
  split; [reflexivity|]. split; [reflexivity|]. split; [reflexivity|].
  split; [split; reflexivity|]. vm_compute. discriminate.
Qed.

(** C2 fails on a listing whose title has a carriage return inside.
    The first run notifies and stores the title; the second run finds
    the same title in the listing, reads the stored one back with a
    line feed, takes the entry for a new one and notifies again: two
    notifications for one entry. *)
Theorem second_run_with_carriage_return_title_notifies_again :
  fst (main Demo.with_cr_title Demo.environ
         (Demo.start Demo.with_cr_title tt Missing))
  = Ok Notified
  /\ file (snd (main Demo.with_cr_title Demo.environ
                  (Demo.start Demo.with_cr_title tt Missing)))
     = Stored Demo.cr_title
  /\ (exists latest s,
         get_latest_update Demo.with_cr_title
           (started Demo.with_cr_title
              (snd (main Demo.with_cr_title Demo.environ
                      (Demo.start Demo.with_cr_title tt Missing))))
         = (Ok (Some latest), s)
         /\ title latest = Demo.cr_title)
  /\ fst (load_last_update Demo.with_cr_title
            (snd (main Demo.with_cr_title Demo.environ
                    (Demo.start Demo.with_cr_title tt Missing))))
     = Ok (Some (lit "Test" ++ [LF] ++ lit "Circular"))
  /\ fst (main Demo.with_cr_title Demo.environ
            (snd (main Demo.with_cr_title Demo.environ
                    (Demo.start Demo.with_cr_title tt Missing))))
     = Ok Notified
  /\ notifications Demo.with_cr_title Demo.environ
       (snd (main Demo.with_cr_title Demo.environ
          (snd (main Demo.with_cr_title Demo.environ
                  (Demo.start Demo.with_cr_title tt Missing)))))
     = 2.
Proof.
  split; [vm_compute; reflexivity|]. split; [vm_compute; reflexivity|].
  split; [eexists _, _; split; vm_compute; reflexivity|].
  split; [vm_compute; reflexivity|].
  split; vm_compute; reflexivity.
Qed.

(** C1 on a run whose notification the chat endpoint refuses: the run
    does not end notified and the state file is as it was. *)
Lemma state_file_written_only_after_confirmed_notification_witness :
  fst (main Demo.rejected Demo.environ (Demo.start Demo.rejected tt Missing))
  = Ok NotSent
  /\ file (snd (main Demo.rejected Demo.environ
                  (Demo.start Demo.rejected tt Missing))) = Missing.
Proof.
  split; [reflexivity|].
  destruct (state_file_written_only_after_confirmed_notification
              Demo.rejected Demo.environ (Demo.start Demo.rejected tt Missing))
    as (_ & H & _).
  apply (H NotSent); [reflexivity | discriminate].
Defined.





(* ================================================================== *)
(** * The program at work *)
(* ================================================================== *)

Example escape_markdown_example :
  escape_markdown (lit "SEBI (LODR) Regulations, 2015 - update!")
  = lit "SEBI \(LODR\) Regulations, 2015 \- update\!".
Proof. reflexivity. Qed.

Example strip_example : strip (lit "  Test Circular ") = lit "Test Circular".
Proof. reflexivity. Qed.

(** The characters [a CR b CR LF c] are read as [a LF b LF c]. *)
Example universal_newlines_example :
  universal_newlines [97; 13; 98; 13; 10; 99]%N = [97; 10; 98; 10; 99]%N.
Proof. reflexivity. Qed.

(** A first run on the plain platform notifies and records the title. *)
Example plain_run_notifies :
  fst (main Demo.plain Demo.environ (Demo.start Demo.plain tt Missing))
  = Ok Notified
  /\ file (snd (main Demo.plain Demo.environ (Demo.start Demo.plain tt Missing)))
     = Stored (lit "Test Circular")
  /\ map (fun c => match c with Get u => u | Post u _ _ => u end)
         (calls (snd (main Demo.plain Demo.environ
                        (Demo.start Demo.plain tt Missing))))
     = [SEBI_URL;
        lit "https://www.sebi.gov.in/detail.html";
        lit "https://example.com/doc.pdf";
        lit "https://api-inference.huggingface.co/models/facebook/bart-large-cnn";
        lit "https://api.telegram.org/bot123:abc/sendMessage"].
Proof. repeat split; vm_compute; reflexivity. Qed.

(** The locator on a page with an iframe: the reference is joined. *)
Example iframe_reference_is_joined :
  fst (extract_pdf_link_from_page Demo.with_iframe Demo.detail_url
         (Demo.start Demo.with_iframe tt Missing))
  = Ok (Some (lit "https://www.sebi.gov.in/files/doc.pdf")).
Proof. reflexivity. Qed.

(** A write that fails after a confirmed notification leaves [main]
    as well. *)
Example unwritable_state_file_ends_process_with_status_1 :
  fst (script Demo.plain Demo.environ
         (@State Demo.plain tt Missing
                 (Some (Exn OSError (lit "[Errno 13] Permission denied: 'last_update.txt'")))
                 [] []))
  = 1%Z.
Proof. reflexivity. Qed.

(** On a full disk the title is not written, but the file has been
    opened for writing: the notification is out, the process ends
    with status 1 and the file is left empty. *)
Example full_disk_empties_state_file :
  fst (main Demo.on_full_disk Demo.environ
         (Demo.start Demo.on_full_disk tt (Stored (lit "Older Circular"))))
  = Raise Demo.disk_full
  /\ file (snd (main Demo.on_full_disk Demo.environ
                  (Demo.start Demo.on_full_disk tt
                     (Stored (lit "Older Circular")))))
     = Stored []
  /\ notifications Demo.on_full_disk Demo.environ
       (snd (main Demo.on_full_disk Demo.environ
               (Demo.start Demo.on_full_disk tt
                  (Stored (lit "Older Circular")))))
     = 1.
Proof. repeat split; vm_compute; reflexivity. Qed.

(** On an ASCII console the first line of [main] cannot be shown: the
    process ends with status 1 before any request. *)
Example ascii_console_ends_process_with_status_1 :
  fst (main Demo.plain_on_ascii Demo.environ
         (Demo.start Demo.plain_on_ascii tt Missing))
  = Raise Demo.encode_error
  /\ fst (script Demo.plain_on_ascii Demo.environ
            (Demo.start Demo.plain_on_ascii tt Missing))
     = 1%Z
  /\ calls (snd (main Demo.plain_on_ascii Demo.environ
                   (Demo.start Demo.plain_on_ascii tt Missing)))
     = [].
Proof. repeat split; vm_compute; reflexivity. Qed.

(* ================================================================== *)
(** * More on escaping *)
(* ================================================================== *)

Lemma escape_markdown_length (text : str) :
  length (escape_markdown text) = length text + length (filter reserved text).
Proof.
  induction text as [|c t IH]; [reflexivity|].
  rewrite escape_markdown_cons, length_app, IH. simpl.
  destruct (reserved c); simpl; lia.
Qed.

Lemma escape_markdown_unreserved (text : str) :
  forallb (fun c => negb (reserved c)) text = true ->
  escape_markdown text = text.
Proof.
  induction text as [|c t IH]; [reflexivity|]. simpl forallb.
  intros H. apply andb_true_iff in H as [Hc Ht].
  rewrite escape_markdown_cons, (IH Ht).
  apply negb_true_iff in Hc. now rewrite Hc.
Qed.

Lemma filter_nil_forallb {A} (f : A -> bool) (l : list A) :
  filter f l = [] -> forallb (fun a => negb (f a)) l = true.
Proof.
  induction l as [|a l IH]; [reflexivity|]. simpl.
  destruct (f a); [discriminate|]. exact IH.
Qed.

(** X1. The escaped text is longer than the text by the number of
    reserved characters in it, and the escaping returns a text
    unchanged exactly when the text has no reserved character. *)
Theorem escape_markdown_grows_by_reserved_count (text : str) :
  length (escape_markdown text) = length text + length (filter reserved text)
  /\ (escape_markdown text = text
      <-> forallb (fun c => negb (reserved c)) text = true).
Proof.
  split; [apply escape_markdown_length|]. split.
  - intros E. apply filter_nil_forallb.
    pose proof (escape_markdown_length text) as L. rewrite E in L.
    destruct (filter reserved text); [reflexivity | simpl in L; lia].
  - apply escape_markdown_unreserved.
Qed.

Lemma escape_markdown_head (text : str) (d : char) (r : str) :
  escape_markdown text = d :: r -> reserved d = false.
Proof.
  destruct text as [|c t]; [discriminate|].
  rewrite escape_markdown_cons. destruct (reserved c) eqn:R; simpl; intros H.
  - injection H as <- _. apply backslash_not_reserved.
  - injection H as <- _. exact R.
Qed.

Lemma unescape_escape_markdown (text : str) :
  unescape_markdown (escape_markdown text) = text.
Proof.
  induction text as [|c t IH]; [reflexivity|].
  rewrite escape_markdown_cons. destruct (reserved c) eqn:R.
  - simpl. rewrite R. now rewrite IH.
  - simpl app. cbn [unescape_markdown]. destruct (N.eqb_spec c backslash) as [E|_].
    + destruct (escape_markdown t) as [|d r] eqn:Et.
      * destruct t as [|x t']; [reflexivity|].
        rewrite escape_markdown_cons in Et. destruct (reserved x); discriminate Et.
      * rewrite (escape_markdown_head t d r Et). now rewrite IH.
    + now rewrite IH.
Qed.

(** X2. Nothing is lost in escaping: dropping the backslash in front
    of each reserved character of the escaped text gives the text back,
    so two different texts are never escaped to the same one. *)
Theorem escape_markdown_is_reversible (a b : str) :
  unescape_markdown (escape_markdown a) = a
  /\ (escape_markdown a = escape_markdown b -> a = b).
Proof.
  split; [apply unescape_escape_markdown|].
  intros E. rewrite <- (unescape_escape_markdown a), E.
  apply unescape_escape_markdown.
Qed.

(** X3. The message is escaped as a whole, its own markup included:
    the asterisks around the headings and the brackets and parentheses
    of the link reach the chat endpoint with a backslash each, between
    the escaped title, summary, address, date and category. *)
Theorem composed_message_markup_is_escaped
        (X : Platform) (latest : entry) (summary : pyval) (pdf_url : str) :
  escape_markdown (compose_message X latest summary pdf_url)
  = loudspeaker ++ lit " \*SEBI Update:\* " ++ escape_markdown (title latest)
    ++ [LF] ++ [LF]
    ++ memo ++ lit " \*Summary:\* " ++ [LF]
    ++ escape_markdown (format X summary) ++ [LF] ++ [LF]
    ++ link_sign ++ lit " \[Read PDF\]\(" ++ escape_markdown pdf_url
    ++ lit "\)" ++ [LF]
    ++ calendar ++ lit " Date: " ++ escape_markdown (date latest) ++ [LF]
    ++ folder ++ lit " Category: " ++ escape_markdown (category latest).
Proof.
  unfold compose_message.
  repeat rewrite escape_markdown_app. reflexivity.
Qed.

(* ================================================================== *)
(** * More on the stages *)
(* ================================================================== *)

Lemma startswith_iff {A} (eqb : A -> A -> bool)
      (eqb_eq : forall a b, eqb a b = true <-> a = b) (p s : list A) :
  startswith eqb p s = true <-> exists post, s = p ++ post.
Proof.
  revert s; induction p as [|a p IH]; intros s; simpl.
  - split; [intros _; now exists s | reflexivity].
  - destruct s as [|b s].
    + split; [discriminate | intros [post E]; discriminate E].
    + rewrite andb_true_iff, eqb_eq, IH. split.
      * intros [-> [post ->]]. now exists post.
      * intros [post E]. injection E as -> ->. split; [reflexivity|now exists post].
Qed.

(** [needle in hay] holds exactly when [hay] has [needle] inside. *)
Lemma contains_iff {A} (eqb : A -> A -> bool)
      (eqb_eq : forall a b, eqb a b = true <-> a = b) (needle hay : list A) :
  contains eqb needle hay = true <-> exists pre post, hay = pre ++ needle ++ post.
Proof.
  induction hay as [|b hay IH].
  - simpl. rewrite orb_false_r, (startswith_iff eqb eqb_eq). split.
    + intros [post E]. now exists [], post.
    + intros [pre [post E]]. destruct pre; [now exists post|discriminate E].
  - cbn [contains]. rewrite orb_true_iff, (startswith_iff eqb eqb_eq), IH. split.
    + intros [[post E]|[pre [post E]]].
      * now exists [], post.
      * exists (b :: pre), post. simpl. now rewrite E.
    + intros [pre [post E]]. destruct pre as [|x pre].
      * left. now exists post.
      * right. injection E as _ E. now exists pre, post.
Qed.

Lemma byte_eqb_eq (a b : byte) : Byte.eqb a b = true <-> a = b.
Proof. split; [apply Byte.byte_dec_bl | apply Byte.byte_dec_lb]. Qed.

Section Downloads.

Variable X : Platform.
Variable environ : Environ.

Lemma download_pdf_bytes_calls url (st : state X) :
  calls (snd (download_pdf_bytes X url st)) = calls st ++ [Get url].
Proof. unfold download_pdf_bytes. apply try_get_calls; intros; frame. Qed.

Lemma download_pdf_bytes_some url (st : state X) data s' :
  download_pdf_bytes X url st = (Ok (Some data), s') ->
  exists resp w,
    requests_get X url (world st) = (Ok resp, w)
    /\ data = content resp
    /\ contains Byte.eqb pdf_signature (firstn 1024 data) = true.
Proof.
  unfold download_pdf_bytes. intros H.
  apply try_except_inv in H. destruct H as [(a & H & Ha)|(x & s & _ & H)].
  2:{ print_step_in H; discriminate H. }
  inversion Ha; subst a; clear Ha. rewrite bind_eq in H.
  destruct (http_get url st) as [[resp|e] s1] eqn:Hg; [|discriminate H].
  apply http_get_inv in Hg. destruct Hg as (Hw & _).
  destruct (contains Byte.eqb pdf_signature (firstn 1024 (content resp)))
    eqn:C; cbn [negb] in H.
  - inversion H; subst. now exists resp, (world s').
  - print_step_in H; discriminate H.
Qed.

Lemma download_pdf_bytes_with_signature url (st : state X) resp w :
  requests_get X url (world st) = (Ok resp, w) ->
  contains Byte.eqb pdf_signature (firstn 1024 (content resp)) = true ->
  fst (download_pdf_bytes X url st) = Ok (Some (content resp)).
Proof.
  intros Hr C. unfold download_pdf_bytes, try_except. rewrite bind_eq.
  unfold http_get. rewrite Hr, C. reflexivity.
Qed.

(** X4. The retriever makes one request. It returns the content
    exactly when the request is answered and the signature [%PDF] lies
    within the first 1024 bytes, wherever in them; what it returns is
    therefore never empty. An exception that leaves it was raised by
    the console on one of its warnings; on a console that takes every
    line it never raises, and returns [None] in every other case. *)
Theorem retriever_returns_content_with_signature url (st : state X) :
  calls (snd (download_pdf_bytes X url st)) = calls st ++ [Get url]
  /\ (forall data,
         fst (download_pdf_bytes X url st) = Ok (Some data)
         <-> exists resp w pre post,
             requests_get X url (world st) = (Ok resp, w)
             /\ data = content resp
             /\ firstn 1024 data = pre ++ pdf_signature ++ post)
  /\ (forall data,
         fst (download_pdf_bytes X url st) = Ok (Some data) ->
         4 <= length data)
  /\ (forall e,
         fst (download_pdf_bytes X url st) = Raise e ->
         exists line, print_error X line = Some e)
  /\ (console_accepts_all X ->
      fst (download_pdf_bytes X url st) = Ok None
      \/ exists data, fst (download_pdf_bytes X url st) = Ok (Some data)).
Proof.
  assert (Iff : forall data,
             fst (download_pdf_bytes X url st) = Ok (Some data)
             <-> exists resp w pre post,
                 requests_get X url (world st) = (Ok resp, w)
                 /\ data = content resp
                 /\ firstn 1024 data = pre ++ pdf_signature ++ post).
  { intros data. split.
    - intros E. destruct (download_pdf_bytes X url st) as [r s'] eqn:D.
      simpl in E. subst r. apply download_pdf_bytes_some in D.
      destruct D as (resp & w & Hr & -> & C).
      apply (contains_iff Byte.eqb byte_eqb_eq) in C.
      destruct C as (pre & post & C). now exists resp, w, pre, post.
    - intros (resp & w & pre & post & Hr & -> & F).
      apply download_pdf_bytes_with_signature with (w := w); [exact Hr|].
      apply (contains_iff Byte.eqb byte_eqb_eq). now exists pre, post. }
  split; [apply download_pdf_bytes_calls|].
  split; [exact Iff|]. split; [|split].
  - intros data E. apply Iff in E.
    destruct E as (resp & w0 & pre & post & _ & _ & F).
    assert (L : length (firstn 1024 data) = length (pre ++ pdf_signature ++ post))
      by now rewrite F.
    rewrite length_firstn, !length_app in L.
    change (length pdf_signature) with 4 in L.
    pose proof (Nat.le_min_r 1024 (length data)). lia.
  - intros e E. destruct (download_pdf_bytes X url st) as [r s'] eqn:D.
    simpl in E. subst r.
    now apply (stages_raise_from_console X environ) in D.
  - intros C.
    destruct (stages_never_raise X environ C) as (_ & _ & T & _).
    destruct (T url st) as [[data|] E]; [right; now exists data | now left].
Qed.

End Downloads.

Section Notifier.

Variable X : Platform.
Variable environ : Environ.

Lemma send_telegram_calls message (s : state X) :
  calls (snd (send_telegram X environ message s))
  = calls s ++ (if has_credentials environ
                then [Post (telegram_url environ) []
                           (telegram_payload environ (escape_markdown message))]
                else []).
Proof.
  unfold has_credentials, send_telegram.
  destruct (truthy (TELEGRAM_TOKEN environ)),
    (truthy (TELEGRAM_CHAT_ID environ)); cbn [negb orb andb].
  1: cbv zeta; apply try_post_calls; intros; frame.
  all: rewrite app_nil_r;
    match goal with
    | |- calls (snd (?m ?s0)) = _ =>
        let K := fresh "K" in
        assert (K : keeps X calls m) by frame; apply (K s0)
    end.
Qed.

(** The notifier returns [True] on one path only: both settings
    present, the request answered 200 and the confirmation printed. *)
Lemma send_telegram_true_iff message (st : state X) :
  fst (send_telegram X environ message st) = Ok true
  <-> truthy (TELEGRAM_TOKEN environ) = true
      /\ truthy (TELEGRAM_CHAT_ID environ) = true
      /\ (exists resp w,
             requests_post X (telegram_url environ) []
               (telegram_payload environ (escape_markdown message)) (world st)
             = (Ok resp, w)
             /\ status_code resp = 200%Z)
      /\ print_error X (check_mark ++ lit " Message sent to Telegram.") = None.
Proof.
  unfold send_telegram.
  destruct (truthy (TELEGRAM_TOKEN environ)) eqn:C1;
    [destruct (truthy (TELEGRAM_CHAT_ID environ)) eqn:C2|]; cbn [negb orb].
  2,3: split; [print_step; intros H; discriminate H
              | intros (? & ? & _); discriminate].
  unfold try_except. cbv zeta. rewrite bind_eq. unfold http_post.
  destruct (requests_post X (telegram_url environ) []
              (telegram_payload environ (escape_markdown message)) (world st))
    as [[resp|e] w] eqn:Hr.
  2:{ split; [print_step; intros H; discriminate H|].
      intros (_ & _ & (resp & w0 & E & _) & _). discriminate E. }
  destruct (status_code resp =? 200)%Z eqn:Hs.
  - rewrite bind_print.
    destruct (print_error X (check_mark ++ lit " Message sent to Telegram."))
      eqn:P.
    + split; [print_step; intros H; discriminate H|].
      intros (_ & _ & _ & E). discriminate E.
    + split; [|reflexivity]. intros _. repeat split.
      exists resp, w. split; [reflexivity | now apply Z.eqb_eq].
  - split.
    + rewrite bind_print.
      destruct (print_error X _); [print_step; intros H; discriminate H|].
      rewrite bind_print.
      destruct (print_error X _); [print_step|]; intros H; discriminate H.
    + intros (_ & _ & (resp0 & w0 & E & S) & _). injection E as <- _.
      apply Z.eqb_eq in S. congruence.
Qed.

(** X5. The notifier returns [True] exactly when both the token and
    the chat id are set, the request that carries the escaped message
    is answered with status 200 and the console takes the line that
    confirms it. An exception that leaves the notifier was raised by
    the console; on a console that takes every line it never raises. *)
Theorem notifier_true_iff_status_200 message (st : state X) :
  (fst (send_telegram X environ message st) = Ok true
   <-> truthy (TELEGRAM_TOKEN environ) = true
       /\ truthy (TELEGRAM_CHAT_ID environ) = true
       /\ (exists resp w,
              requests_post X (telegram_url environ) []
                (telegram_payload environ (escape_markdown message)) (world st)
              = (Ok resp, w)
              /\ status_code resp = 200%Z)
       /\ print_error X (check_mark ++ lit " Message sent to Telegram.") = None)
  /\ (forall e,
         fst (send_telegram X environ message st) = Raise e ->
         exists line, print_error X line = Some e)
  /\ (console_accepts_all X ->
      exists b, fst (send_telegram X environ message st) = Ok b).
Proof.
  split; [apply send_telegram_true_iff|]. split.
  - intros e E. destruct (send_telegram X environ message st) as [r s'] eqn:D.
    simpl in E. subst r.
    now apply (stages_raise_from_console X environ) in D.
  - intros C. now apply (stages_never_raise X environ C).
Qed.

(** X6. Without a token or without a chat id the notifier requests
    nothing; with both it makes exactly one request, a POST to the
    bot's [sendMessage] address whose text is the escaped message and
    whose parse mode is MarkdownV2, whatever the outcome. *)
Theorem notifier_posts_once_with_credentials message (st : state X) :
  calls (snd (send_telegram X environ message st))
  = calls st
    ++ (if truthy (TELEGRAM_TOKEN environ) && truthy (TELEGRAM_CHAT_ID environ)
        then [Post (lit "https://api.telegram.org/bot"
                    ++ env_text (TELEGRAM_TOKEN environ) ++ lit "/sendMessage")
                   []
                   (PDict [(lit "chat_id", PStr (env_text (TELEGRAM_CHAT_ID environ)));
                           (lit "text", PStr (escape_markdown message));
                           (lit "parse_mode", PStr (lit "MarkdownV2"));
                           (lit "disable_web_page_preview", PBool false)])]
        else []).
Proof. apply send_telegram_calls. Qed.

End Notifier.

Section Fetcher.

Variable X : Platform.
Variable environ : Environ.

Lemma first_row_cells_inv (soup : node) cells :
  first_row_cells soup = Some cells ->
  exists table tbody row,
    updates_table soup = Some table
    /\ soup_find (lit "tbody") [] table = Some tbody
    /\ soup_find (lit "tr") [] tbody = Some row
    /\ find_all (lit "td") row = cells.
Proof.
  unfold first_row_cells. fold (updates_table soup).
  destruct (updates_table soup) as [table|]; [|discriminate].
  destruct (soup_find (lit "tbody") [] table) as [tbody|] eqn:Eb; [|discriminate].
  destruct (soup_find (lit "tr") [] tbody) as [row|] eqn:Er; [|discriminate].
  intros E. injection E as <-. now exists table, tbody, row.
Qed.

(** The fetcher once the listing has been received and parsed down to
    the cells of its first row. *)
Lemma get_latest_update_on_cells (st : state X) resp w soup cells :
  requests_get X SEBI_URL (world st) = (Ok resp, w) ->
  BeautifulSoup X (text resp) = Ok soup ->
  first_row_cells soup = Some cells ->
  get_latest_update X st
  = try_except
      (match cells with
       | column0 :: column1 :: column2 :: _ =>
           bind (lift (method_of (soup_find (lit "a") [] column2) "get_text"))
             (fun anchor =>
                bind (match soup_find (lit "a") [] column2 with
                      | Some a =>
                          bind (lift (getitem a (lit "href"))) (fun href =>
                          bind (lift (urljoin X SEBI_URL href)) (fun url =>
                          ret (Some url)))
                      | None => ret None
                      end)
                  (fun detail_link =>
                     ret (Some (Entry (get_text_strip column0)
                                      (get_text_strip column1)
                                      (get_text_strip anchor) detail_link))))
       | _ => bind (print (warning ++ lit " Unexpected table format."))
                   (fun _ => ret None)
       end)
      (fun e =>
         bind (print (warning ++ lit " Error fetching latest update: "
                      ++ exn_str e)) (fun _ => ret None))
      (State w (file st) (write_error st) (stdout st)
             (calls st ++ [Get SEBI_URL])).
Proof.
  intros Hreq Hsoup Hcells.
  destruct (first_row_cells_inv _ _ Hcells) as (table & tbody & row & Et & Eb & Er & Ec).
  unfold updates_table in Et.
  unfold get_latest_update, try_except. rewrite bind_eq.
  unfold http_get. rewrite Hreq. rewrite bind_lift, Hsoup. cbv zeta. rewrite Et.
  rewrite bind_lift, Eb. cbn [method_of].
  rewrite bind_lift, Er. cbn [method_of].
  rewrite Ec. reflexivity.
Qed.

(** X7. From a listing that parses down to a first row of at least
    three cells, the third holding an anchor with an [href], the
    fetcher returns the entry made of the stripped texts of the first
    two cells and of the anchor and of the [href] joined to the
    listing address; it prints nothing. *)
Theorem fetcher_reads_first_row
        (st : state X) resp w soup cell0 cell1 cell2 more anchor href url :
  requests_get X SEBI_URL (world st) = (Ok resp, w) ->
  BeautifulSoup X (text resp) = Ok soup ->
  first_row_cells soup = Some (cell0 :: cell1 :: cell2 :: more) ->
  soup_find (lit "a") [] cell2 = Some anchor ->
  getitem anchor (lit "href") = Ok href ->
  urljoin X SEBI_URL href = Ok url ->
  fst (get_latest_update X st)
  = Ok (Some (Entry (get_text_strip cell0) (get_text_strip cell1)
                    (get_text_strip anchor) (Some url)))
  /\ stdout (snd (get_latest_update X st)) = stdout st.
Proof.
  intros Hreq Hsoup Hcells Ha Hh Hu.
  rewrite (get_latest_update_on_cells st resp w soup _ Hreq Hsoup Hcells).
  unfold try_except. rewrite bind_lift, Ha. cbn [method_of].
  rewrite bind_eq, bind_lift, Hh, bind_lift, Hu. split; reflexivity.
Qed.

Lemma get_latest_update_fields (st : state X) e st' :
  get_latest_update X st = (Ok (Some e), st') ->
  exists cell0 cell1 anchor,
    date e = get_text_strip cell0
    /\ category e = get_text_strip cell1
    /\ title e = get_text_strip anchor.
Proof.
  unfold get_latest_update. intros H.
  apply try_except_inv in H. destruct H as [(a & H & Ha)|(x & s & _ & H)].
  2:{ print_step_in H; discriminate H. }
  inversion Ha; subst a; clear Ha.
  repeat run_step H; try discriminate H.
  inversion H; subst. simpl. eexists _, _, _. repeat split.
Qed.

(** X8. Whatever entry the fetcher returns, its date, category and
    title have no whitespace at either end. *)
Theorem fetched_fields_are_trimmed (st : state X) e st' :
  get_latest_update X st = (Ok (Some e), st') ->
  trimmed (date e) /\ trimmed (category e) /\ trimmed (title e).
Proof.
  intros H. destruct (get_latest_update_fields _ _ _ H) as (c0 & c1 & a & -> & -> & ->).
  repeat split; apply get_text_strip_trimmed.
Qed.

(** X9. The fetcher makes one request, the GET of the listing. An
    exception that leaves it was raised by the console on one of its
    warnings; on a console that takes every line it never raises. It
    returns [None], with the matching line on the console once the
    console has taken it, when the request raises, when the listing has
    no updates table, and when the first row has fewer than three
    cells. *)
Theorem fetcher_returns_none_on_malformed_listing (st : state X) :
  calls (snd (get_latest_update X st)) = calls st ++ [Get SEBI_URL]
  /\ (forall e,
         fst (get_latest_update X st) = Raise e ->
         exists line, print_error X line = Some e)
  /\ (console_accepts_all X -> exists r, fst (get_latest_update X st) = Ok r)
  /\ (forall e w,
         requests_get X SEBI_URL (world st) = (Raise e, w) ->
         print_error X (warning ++ lit " Error fetching latest update: "
                        ++ exn_str e) = None ->
         fst (get_latest_update X st) = Ok None
         /\ stdout (snd (get_latest_update X st))
            = stdout st ++ [warning ++ lit " Error fetching latest update: "
                            ++ exn_str e])
  /\ (forall resp w soup,
         requests_get X SEBI_URL (world st) = (Ok resp, w) ->
         BeautifulSoup X (text resp) = Ok soup ->
         (updates_table soup = None ->
          print_error X (warning ++ lit " Could not find updates table.")
          = None ->
          fst (get_latest_update X st) = Ok None
          /\ stdout (snd (get_latest_update X st))
             = stdout st ++ [warning ++ lit " Could not find updates table."])
         /\ (forall cells,
                first_row_cells soup = Some cells ->
                length cells < 3 ->
                print_error X (warning ++ lit " Unexpected table format.")
                = None ->
                fst (get_latest_update X st) = Ok None
                /\ stdout (snd (get_latest_update X st))
                   = stdout st ++ [warning ++ lit " Unexpected table format."])).
Proof.
  split; [apply get_latest_update_calls|].
  split; [|split; [|split]].
  - intros e E. destruct (get_latest_update X st) as [r s'] eqn:D.
    simpl in E. subst r.
    now apply (stages_raise_from_console X environ) in D.
  - intros C. now apply (stages_never_raise X environ C).
  - intros e w Hreq P. unfold get_latest_update, try_except. rewrite bind_eq.
    unfold http_get. rewrite Hreq. rewrite bind_print, P.
    unfold print. rewrite P. split; reflexivity.
  - intros resp w soup Hreq Hsoup. split.
    + intros Ht P. unfold updates_table in Ht.
      unfold get_latest_update, try_except. rewrite bind_eq.
      unfold http_get. rewrite Hreq. rewrite bind_lift, Hsoup. cbv zeta.
      rewrite Ht. rewrite bind_print, P. unfold print. rewrite P.
      split; reflexivity.
    + intros cells Hcells Hlen P.
      rewrite (get_latest_update_on_cells st resp w soup _ Hreq Hsoup Hcells).
      unfold try_except.
      destruct cells as [|c0 [|c1 [|c2 more]]];
        try (rewrite bind_print, P; unfold print; rewrite P;
             split; reflexivity).
      simpl in Hlen. lia.
Qed.

End Fetcher.

(* ================================================================== *)
(** * More on the state file *)
(* ================================================================== *)

Lemma universal_newlines_bounded (n : nat) (s : str) :
  length s <= n -> ~ In CR (universal_newlines s).
Proof.
  revert s; induction n as [|n IH]; intros [|c t] L; simpl in *; try tauto;
    try lia.
  destruct (N.eqb_spec c CR) as [->|Hc].
  - intros [E|Hin]; [discriminate E|].
    destruct t as [|d t']; [exact Hin|].
    destruct (d =? LF)%N.
    + apply (IH t'); [simpl in L; lia | exact Hin].
    + apply (IH (d :: t')); [lia | exact Hin].
  - intros [E|Hin]; [congruence|]. apply (IH t); [lia | exact Hin].
Qed.

(** What is read has no carriage return left. *)
Lemma universal_newlines_no_CR (s : str) : ~ In CR (universal_newlines s).
Proof. now apply universal_newlines_bounded with (n := length s). Qed.

Lemma strip_incl (s : str) (c : char) : In c (strip s) -> In c s.
Proof.
  unfold strip. intros H.
  destruct (rstrip_prefix (lstrip s)) as [q Eq].
  destruct (lstrip_suffix s) as [p Ep].
  rewrite Ep. apply in_or_app. right. rewrite Eq. apply in_or_app. now left.
Qed.

Section Loading.

Variable X : Platform.

(** X10. Loading changes nothing. It returns [None] when the file is
    missing; a title it returns has no whitespace at either end and no
    carriage return; and it returns the stored text itself when that
    has neither. *)
Theorem loaded_title_is_trimmed_without_carriage_return (st : state X) :
  snd (load_last_update X st) = st
  /\ (file st = Missing -> fst (load_last_update X st) = Ok None)
  /\ (forall s,
         fst (load_last_update X st) = Ok (Some s) ->
         trimmed s /\ ~ In CR s)
  /\ (forall data,
         file st = Stored data -> trimmed data -> ~ In CR data ->
         fst (load_last_update X st) = Ok (Some data)).
Proof.
  split; [apply load_last_update_keeps_state|].
  unfold load_last_update. split; [|split].
  - now intros ->.
  - intros s. destruct (file st) as [|data|e]; simpl; try discriminate.
    intros E. injection E as <-. split; [apply strip_trimmed|].
    intros Hin. apply strip_incl in Hin. now apply universal_newlines_no_CR in Hin.
  - intros data -> T C. simpl.
    now rewrite (universal_newlines_id data C), (strip_id data T).
Qed.

End Loading.

(* ================================================================== *)
(** * What a stage does to the state *)
(* ================================================================== *)

Section Disk.

Variable X : Platform.

Lemma print_keeps_disk line : keeps X (disk X) (print line).
Proof. intros st. unfold print. now destruct (print_error X line). Qed.

Lemma http_get_keeps_disk url : keeps X (disk X) (http_get url).
Proof.
  intros st. unfold http_get. now destruct (requests_get X url (world st)).
Qed.

Lemma http_post_keeps_disk url headers payload :
  keeps X (disk X) (http_post url headers payload).
Proof.
  intros st. unfold http_post.
  now destruct (requests_post X url headers payload (world st)).
Qed.

End Disk.

#[global] Hint Resolve print_keeps_disk http_get_keeps_disk
  http_post_keeps_disk : frame.

Section StageFacts.

Variable X : Platform.
Variable environ : Environ.

Lemma disk_eq (s s' : state X) :
  disk X s' = disk X s -> file s' = file s /\ write_error s' = write_error s.
Proof. unfold disk. intros E. now inversion E. Qed.

Lemma get_latest_update_facts (s : state X) r s' :
  get_latest_update X s = (r, s') ->
  file s' = file s /\ write_error s' = write_error s
  /\ calls s' = calls s ++ [Get SEBI_URL]
  /\ forall e, r = Raise e -> exists line, print_error X line = Some e.
Proof.
  intros E.
  assert (K : keeps X (disk X) (get_latest_update X))
    by (unfold get_latest_update; frame).
  pose proof (disk_eq _ _ (K s)) as [F W].
  pose proof (get_latest_update_calls X s) as C.
  rewrite E in F, W, C. cbn [snd] in F, W, C.
  repeat split; try assumption.
  intros e ->. now apply (stages_raise_from_console X environ) in E.
Qed.

Lemma extract_pdf_link_calls url (s : state X) :
  calls (snd (extract_pdf_link_from_page X url s)) = calls s ++ [Get url].
Proof. unfold extract_pdf_link_from_page. apply try_get_calls; intros; frame. Qed.

Lemma extract_pdf_link_facts url (s : state X) r s' :
  extract_pdf_link_from_page X url s = (r, s') ->
  file s' = file s /\ write_error s' = write_error s
  /\ calls s' = calls s ++ [Get url]
  /\ forall e, r = Raise e -> exists line, print_error X line = Some e.
Proof.
  intros E.
  assert (K : keeps X (disk X) (extract_pdf_link_from_page X url))
    by (unfold extract_pdf_link_from_page; frame).
  pose proof (disk_eq _ _ (K s)) as [F W].
  pose proof (extract_pdf_link_calls url s) as C.
  rewrite E in F, W, C. cbn [snd] in F, W, C.
  repeat split; try assumption.
  intros e ->. now apply (stages_raise_from_console X environ) in E.
Qed.

Lemma download_pdf_bytes_facts url (s : state X) r s' :
  download_pdf_bytes X url s = (r, s') ->
  file s' = file s /\ write_error s' = write_error s
  /\ calls s' = calls s ++ [Get url]
  /\ forall e, r = Raise e -> exists line, print_error X line = Some e.
Proof.
  intros E.
  assert (K : keeps X (disk X) (download_pdf_bytes X url))
    by (unfold download_pdf_bytes; frame).
  pose proof (disk_eq _ _ (K s)) as [F W].
  pose proof (download_pdf_bytes_calls X url s) as C.
  rewrite E in F, W, C. cbn [snd] in F, W, C.
  repeat split; try assumption.
  intros e ->. now apply (stages_raise_from_console X environ) in E.
Qed.

Lemma extract_text_facts data (s : state X) r s' :
  extract_text_from_pdf_bytes X data s = (r, s') ->
  file s' = file s /\ write_error s' = write_error s
  /\ calls s' = calls s
  /\ forall e, r = Raise e -> exists line, print_error X line = Some e.
Proof.
  intros E.
  assert (K : keeps X (disk X) (extract_text_from_pdf_bytes X data))
    by (unfold extract_text_from_pdf_bytes; frame).
  pose proof (disk_eq _ _ (K s)) as [F W].
  pose proof (extract_text_keeps_calls X data s) as C.
  rewrite E in F, W, C. cbn [snd] in F, W, C.
  repeat split; try assumption.
  intros e ->. now apply (stages_raise_from_console X environ) in E.
Qed.

Lemma summarize_text_calls txt (s : state X) :
  calls (snd (summarize_text X environ txt s))
  = calls s ++ (if truthy (HF_API_KEY environ)
                then [Post (hf_url environ) (hf_headers environ) (hf_payload txt)]
                else []).
Proof.
  unfold summarize_text. destruct (truthy (HF_API_KEY environ)); cbn [negb].
  - cbv zeta. apply try_post_calls; intros; frame.
  - simpl. now rewrite app_nil_r.
Qed.

Lemma summarize_text_facts txt (s : state X) r s' :
  summarize_text X environ txt s = (r, s') ->
  file s' = file s /\ write_error s' = write_error s
  /\ calls s'
     = calls s ++ (if truthy (HF_API_KEY environ)
                   then [Post (hf_url environ) (hf_headers environ) (hf_payload txt)]
                   else [])
  /\ forall e, r = Raise e -> exists line, print_error X line = Some e.
Proof.
  intros E.
  assert (K : keeps X (disk X) (summarize_text X environ txt))
    by (unfold summarize_text; frame).
  pose proof (disk_eq _ _ (K s)) as [F W].
  pose proof (summarize_text_calls txt s) as C.
  rewrite E in F, W, C. cbn [snd] in F, W, C.
  repeat split; try assumption.
  intros e ->. now apply (stages_raise_from_console X environ) in E.
Qed.

Lemma send_telegram_facts message (s : state X) r s' :
  send_telegram X environ message s = (r, s') ->
  file s' = file s /\ write_error s' = write_error s
  /\ calls s'
     = calls s ++ (if has_credentials environ
                   then [Post (telegram_url environ) []
                              (telegram_payload environ (escape_markdown message))]
                   else [])
  /\ forall e, r = Raise e -> exists line, print_error X line = Some e.
Proof.
  intros E.
  assert (K : keeps X (disk X) (send_telegram X environ message))
    by (unfold send_telegram; frame).
  pose proof (disk_eq _ _ (K s)) as [F W].
  pose proof (send_telegram_calls X environ message s) as C.
  rewrite E in F, W, C. cbn [snd] in F, W, C.
  repeat split; try assumption.
  intros e ->. now apply (stages_raise_from_console X environ) in E.
Qed.

Lemma load_last_update_facts (s : state X) r s' :
  load_last_update X s = (r, s') ->
  s' = s
  /\ (forall e, r = Raise e -> file s = Unreadable e)
  /\ (forall t, r = Ok (Some t) ->
      exists data, file s = Stored data /\ t = strip (universal_newlines data))
  /\ (r = Ok None -> file s = Missing).
Proof.
  unfold load_last_update. destruct (file s) as [|data|e0]; intros E;
    inversion E; subst; repeat split; try discriminate; try reflexivity.
  - intros t T. injection T as <-. now exists data.
  - intros e T. now injection T as <-.
Qed.

Lemma save_last_update_facts t (s : state X) r s' :
  save_last_update X t s = (r, s') ->
  calls s' = calls s /\ write_error s' = write_error s
  /\ (forall e, r = Raise e ->
      (write_error s = Some e /\ s' = s)
      \/ (exists remains,
             write_failure X t = Some (e, remains)
             /\ file s' = Stored remains))
  /\ (r = Ok tt -> file s' = Stored t).
Proof.
  unfold save_last_update. destruct (write_error s) as [e0|] eqn:W;
    [|destruct (write_failure X t) as [[e1 remains]|] eqn:F]; intros E;
    inversion E; subst; cbn [calls write_error file];
    repeat split; try discriminate; try assumption.
  - intros e T. injection T as <-. now left.
  - intros e T. injection T as <-. right. now exists remains.
Qed.

Lemma notifications_of_calls (s s' : state X) l :
  calls s' = calls s ++ l ->
  notifications X environ s'
  = notifications X environ s + length (filter (is_notification environ) l).
Proof.
  unfold notifications. intros ->. now rewrite filter_app, length_app.
Qed.

End StageFacts.

(* ================================================================== *)
(** * More on runs *)
(* ================================================================== *)

(** Replace every stage equation by what it tells about the states. *)
Ltac note_stages X environ :=
  repeat match goal with
  | E : get_latest_update _ ?s = _ |- _ =>
      let N := fresh "N" in
      pose proof (get_latest_update_keeps_notifications X environ s) as N;
      rewrite E in N; cbn [snd] in N;
      apply (get_latest_update_facts X environ) in E;
      destruct E as (? & ? & ? & ?)
  | E : extract_pdf_link_from_page _ ?u ?s = _ |- _ =>
      let N := fresh "N" in
      pose proof (extract_pdf_link_keeps_notifications X environ u s) as N;
      rewrite E in N; cbn [snd] in N;
      apply (extract_pdf_link_facts X environ) in E;
      destruct E as (? & ? & ? & ?)
  | E : download_pdf_bytes _ ?u ?s = _ |- _ =>
      let N := fresh "N" in
      pose proof (download_pdf_bytes_keeps_notifications X environ u s) as N;
      rewrite E in N; cbn [snd] in N;
      apply (download_pdf_bytes_facts X environ) in E;
      destruct E as (? & ? & ? & ?)
  | E : extract_text_from_pdf_bytes _ ?d ?s = _ |- _ =>
      let N := fresh "N" in
      pose proof (extract_text_keeps_notifications X environ d s) as N;
      rewrite E in N; cbn [snd] in N;
      apply (extract_text_facts X environ) in E;
      destruct E as (? & ? & ? & ?)
  | E : summarize_text _ _ ?t ?s = _ |- _ =>
      let N := fresh "N" in
      pose proof (summarize_text_keeps_notifications X environ t s) as N;
      rewrite E in N; cbn [snd] in N;
      apply (summarize_text_facts X environ) in E;
      destruct E as (? & ? & ? & ?)
  | E : send_telegram _ _ _ _ = _ |- _ =>
      apply (send_telegram_facts X environ) in E;
      destruct E as (? & ? & ? & ?)
  | E : load_last_update _ _ = _ |- _ =>
      apply load_last_update_facts in E;
      destruct E as (? & ? & ? & ?)
  | E : save_last_update _ _ _ = _ |- _ =>
      apply save_last_update_facts in E;
      destruct E as (? & ? & ? & ?)
  | H : forall e, Raise ?x = Raise e -> _ |- _ => specialize (H x eq_refl)
  end.

Section MainRuns.

Variable X : Platform.
Variable environ : Environ.



Lemma send_telegram_notifications message (s : state X) r s' :
  send_telegram X environ message s = (r, s') ->
  notifications X environ s' <= S (notifications X environ s).
Proof.
  intros E. pose proof (send_telegram_calls X environ message s) as C.
  rewrite E in C. cbn [snd] in C.
  apply (notifications_of_calls X environ) in C. rewrite C.
  destruct (has_credentials environ); simpl;
    [destruct (str_eqb _ _); simpl|]; lia.
Qed.

Lemma save_last_update_notifications t (s : state X) r s' :
  save_last_update X t s = (r, s') ->
  notifications X environ s' = notifications X environ s.
Proof.
  intros E. apply save_last_update_facts in E. destruct E as (C & _).
  unfold notifications. now rewrite C.
Qed.

(** What a run adds to the notifications posted. *)
Lemma main_notifications (st st' : state X) r :
  main X environ st = (r, st') ->
  notifications X environ st' <= S (notifications X environ st)
  /\ (forall o, r = Ok o -> o <> Notified -> o <> NotSent ->
      notifications X environ st' = notifications X environ st).
Proof.
  unfold main. intros H.
  repeat run_step H; try discriminate H.
  all: injection H as <- <-.
  all: repeat match goal with
       | E : send_telegram _ _ _ _ = _ |- _ =>
           apply send_telegram_notifications in E
       | E : save_last_update _ _ _ = _ |- _ =>
           apply save_last_update_notifications in E
       | E : load_last_update _ _ = _ |- _ =>
           apply load_last_update_facts in E; destruct E as (-> & _)
       end.
  all: note_stages X environ.
  all: split; [|intros o Ho; inversion Ho; subst; intros; try congruence].
  all: rewrite ?notifications_started, ?notifications_announced in *.
  all: unfold notifications in *; rewrite ?print_calls in *.
  all: lia.
Qed.

(** X12. A run posts at most one notification, and none when it ends
    before the notifier is called. *)
Theorem run_posts_at_most_one_notification (st : state X) :
  notifications X environ (snd (main X environ st))
  <= S (notifications X environ st)
  /\ (forall o,
         fst (main X environ st) = Ok o -> o <> Notified -> o <> NotSent ->
         notifications X environ (snd (main X environ st))
         = notifications X environ st).
Proof.
  destruct (main X environ st) as [r st'] eqn:Em.
  apply main_notifications in Em. exact Em.
Qed.

(** X13. When the fetcher returns nothing the run ends there, the
    console having taken the opening line: the listing is the only
    request made and the state file is as it was. The run ends
    without update once the console has taken that notice too; what
    the console raises on it leaves [main]. *)
Theorem run_without_update_requests_listing_only (st : state X) s1 :
  print_error X (rocket ++ lit " Checking SEBI for updates...") = None ->
  get_latest_update X (started X st) = (Ok None, s1) ->
  fst (main X environ st)
  = match print_error X (warning ++ lit " No update fetched.") with
    | None => Ok NoUpdate
    | Some e => Raise e
    end
  /\ calls (snd (main X environ st)) = calls st ++ [Get SEBI_URL]
  /\ file (snd (main X environ st)) = file st.
Proof.
  intros P0 Eg. unfold main. rewrite bind_print, P0.
  change (snd (print _ st)) with (started X st).
  rewrite bind_eq, Eg, bind_print.
  apply (get_latest_update_facts X environ) in Eg.
  destruct Eg as (F & _ & C & _). unfold started in F, C.
  rewrite print_file in F. rewrite print_calls in C.
  destruct (print_error X (warning ++ lit " No update fetched.")) eqn:Pn;
    unfold ret; cbn [fst snd]; rewrite ?print_file, ?print_calls;
    now repeat split.
Qed.

Lemma str_eqb_true (a b : str) : str_eqb a b = true -> a = b.
Proof.
  revert b; induction a as [|x a IH]; intros [|y b]; simpl; try discriminate.
  - reflexivity.
  - intros H. apply andb_true_iff in H as [H1 H2].
    apply N.eqb_eq in H1. f_equal; auto.
Qed.

Lemma main_already_processed_inv (st st' : state X) :
  main X environ st = (Ok AlreadyProcessed, st') ->
  exists latest s1 stored,
    get_latest_update X (started X st) = (Ok (Some latest), s1)
    /\ file st = Stored stored
    /\ strip (universal_newlines stored) = title latest.
Proof.
  unfold main. intros H. print_step_in H; [discriminate H|].
  change (snd (print _ st)) with (started X st) in H.
  rewrite bind_eq in H.
  destruct (get_latest_update X (started X st)) as [[[latest|]|e] s1] eqn:E1;
    [| print_step_in H; discriminate H | discriminate H].
  print_step_in H; [discriminate H|]. rewrite bind_eq in H.
  destruct (load_last_update X _) as [[last|e] sL] eqn:EL; [|discriminate H].
  destruct (same_title last (title latest)) eqn:ES.
  - apply load_last_update_facts in EL. destruct EL as (_ & _ & EL & _).
    destruct last as [t|]; [|discriminate ES].
    destruct (EL t eq_refl) as (data & F & ->).
    apply str_eqb_true in ES.
    apply (get_latest_update_facts X environ) in E1 as F1.
    destruct F1 as (F1 & _).
    exists latest, s1, data. repeat split; [|exact ES].
    rewrite print_file, F1 in F. unfold started in F.
    rewrite print_file in F. exact F.
  - exfalso. repeat run_step H; try discriminate H.
Qed.

(** X14. With an entry fetched, a run that stops as already processed
    has found a state file whose text, read with universal newlines
    and stripped, is the title of the entry; with such a file the run
    does stop there, the console taking its three lines; with no state
    file it never does. *)
Theorem already_processed_iff_stored_title_matches (st : state X) latest s1 :
  get_latest_update X (started X st) = (Ok (Some latest), s1) ->
  (fst (main X environ st) = Ok AlreadyProcessed ->
   exists stored,
     file st = Stored stored
     /\ strip (universal_newlines stored) = title latest)
  /\ (announces X st latest ->
      print_error X (info_sign ++ lit " Already processed.") = None ->
      (fst (main X environ st) = Ok AlreadyProcessed
       <-> exists stored,
           file st = Stored stored
           /\ strip (universal_newlines stored) = title latest))
  /\ (file st = Missing -> fst (main X environ st) <> Ok AlreadyProcessed).
Proof.
  intros Eg.
  assert (Inv : fst (main X environ st) = Ok AlreadyProcessed ->
                exists stored,
                  file st = Stored stored
                  /\ strip (universal_newlines stored) = title latest).
  { intros E. destruct (main X environ st) as [r st'] eqn:Em.
    simpl in E. subst r. apply main_already_processed_inv in Em.
    destruct Em as (l & s & stored & Eg' & F & T).
    rewrite Eg in Eg'. injection Eg' as <- _. now exists stored. }
  split; [exact Inv|]. split.
  - intros A P. split; [exact Inv|]. intros (stored & F & T).
    now rewrite (main_already_processed X environ st latest s1 stored
                   A P Eg F T).
  - intros M E. destruct (Inv E) as (stored & F & _). congruence.
Qed.

(** X15. An entry whose title has a carriage return inside is never
    taken for processed, whatever the state file holds. *)
Theorem title_with_carriage_return_is_never_recognised
        (st : state X) latest s1 :
  get_latest_update X (started X st) = (Ok (Some latest), s1) ->
  In CR (title latest) ->
  fst (main X environ st) <> Ok AlreadyProcessed.
Proof.
  intros Eg Hcr E. destruct (main X environ st) as [r st'] eqn:Em.
  simpl in E. subst r. apply main_already_processed_inv in Em.
  destruct Em as (l & s & stored & Eg' & F & T).
  rewrite Eg in Eg'. injection Eg' as <- _.
  rewrite <- T in Hcr. apply strip_incl in Hcr.
  now apply universal_newlines_no_CR in Hcr.
Qed.

(** X16. A run that ends notified has gone through every stage,
    with the detail link of the entry fetched, the document address
    the locator returned for that link, the text extracted from the
    document and the summary of that text, and has made these requests
    and no other, in this order: the listing, the detail link, the
    document address, the summarisation of the text when a key is
    configured, the chat message composed of the entry, the summary and
    the document address. *)
Theorem complete_run_requests_in_order (st : state X) :
  fst (main X environ st) = Ok Notified ->
  exists latest link pdf_url txt summary s6,
    notified_through X environ st latest link pdf_url txt summary s6
    /\ calls (snd (main X environ st))
       = calls st ++ requests_of_run X environ latest link pdf_url txt summary.
Proof.
  intros En. pose proof (main_cases X environ st) as C. rewrite En in C.
  destruct C as (latest & s6 & (link & pdf_url & txt & summary & N) & E7).
  exists latest, link, pdf_url, txt, summary, s6. split; [exact N|].
  destruct N as (s1 & last & s2 & s3 & pdf_bytes & s4 & s5
                 & _ & E1 & _ & _ & El & _ & E2 & _ & E3 & _ & E4 & _ & E5 & E6).
  apply (get_latest_update_facts X environ) in E1. destruct E1 as (_ & _ & C1 & _).
  apply (extract_pdf_link_facts X environ) in E2. destruct E2 as (_ & _ & C2 & _).
  apply (download_pdf_bytes_facts X environ) in E3. destruct E3 as (_ & _ & C3 & _).
  apply (extract_text_facts X environ) in E4. destruct E4 as (_ & _ & C4 & _).
  apply (summarize_text_facts X environ) in E5. destruct E5 as (_ & _ & C5 & _).
  apply send_telegram_true in E6. destruct E6 as (_ & C6 & _).
  apply save_last_update_facts in E7. destruct E7 as (C7 & _).
  unfold announced in C2. unfold started in C1.
  rewrite print_calls in C1, C2.
  rewrite C7, C6, C5, C4, C3, C2, C1.
  unfold requests_of_run. rewrite <- !app_assoc. reflexivity.
Qed.

End MainRuns.

Section Answers.

Variable X : Platform.
Variable environ : Environ.

(** X17. With a key and an answer of status 200 the summarizer
    returns what the first element of the answer holds under
    [summary_text], or the no-summary notice when it holds nothing
    under that key; an answer that is an empty array, an object, or no
    JSON at all gives the error notice with the message of the
    exception raised on the way. *)
Theorem summarizer_reads_summary_text (txt : str) (st : state X) resp w :
  truthy (HF_API_KEY environ) = true ->
  requests_post X (hf_url environ) (hf_headers environ) (hf_payload txt)
                (world st) = (Ok resp, w) ->
  status_code resp = 200%Z ->
  (forall d more,
      json resp = Ok (PList (PDict d :: more)) ->
      fst (summarize_text X environ txt st)
      = Ok match lookup (lit "summary_text") d with
           | Some v => v
           | None => PStr (warning ++ lit " No summary returned.")
           end)
  /\ (json resp = Ok (PList []) ->
      fst (summarize_text X environ txt st)
      = Ok (PStr (warning ++ lit " Summary error: list index out of range")))
  /\ (forall d,
         json resp = Ok (PDict d) ->
         fst (summarize_text X environ txt st)
         = Ok (PStr (warning ++ lit " Summary error: 0")))
  /\ (forall e,
         json resp = Raise e ->
         fst (summarize_text X environ txt st)
         = Ok (PStr (warning ++ lit " Summary error: " ++ exn_str e))).
Proof.
  intros K Hr Hs.
  assert (E : summarize_text X environ txt st
              = try_except
                  (bind (lift (json resp)) (fun body =>
                   bind (lift (getitem0 body)) (fun first =>
                   lift (get_method first (lit "summary_text")
                           (PStr no_summary_notice)))))
                  (fun e => ret (PStr (warning ++ lit " Summary error: "
                                       ++ exn_str e)))
                  (State w (file st) (write_error st) (stdout st)
                         (calls st ++ [Post (hf_url environ) (hf_headers environ)
                                            (hf_payload txt)]))).
  { unfold summarize_text. rewrite K. cbn [negb]. cbv zeta.
    unfold try_except. rewrite bind_eq. unfold http_post. rewrite Hr.
    apply Z.eqb_eq in Hs. rewrite Hs. reflexivity. }
  rewrite E. unfold try_except. rewrite bind_lift.
  repeat split.
  - intros d more ->. rewrite bind_lift. reflexivity.
  - intros ->. rewrite bind_lift. reflexivity.
  - intros d ->. rewrite bind_lift. reflexivity.
  - intros e ->. reflexivity.
Qed.

(** X18. The locator makes one request, the GET of the detail page.
    An exception that leaves it was raised by the console on one of
    its warnings; on a console that takes every line it never raises.
    On a page with neither a PDF embed nor an iframe it returns [None]
    and reports that no PDF was found; on a page whose only candidate
    is an iframe without [src] it returns [None] and reports the
    [KeyError]; each time once the console has taken the report. *)
Theorem locator_returns_none_without_reference (detail_url : str) (st : state X) :
  calls (snd (extract_pdf_link_from_page X detail_url st))
  = calls st ++ [Get detail_url]
  /\ (forall e,
         fst (extract_pdf_link_from_page X detail_url st) = Raise e ->
         exists line, print_error X line = Some e)
  /\ (console_accepts_all X ->
      exists r, fst (extract_pdf_link_from_page X detail_url st) = Ok r)
  /\ (forall resp w soup,
         requests_get X detail_url (world st) = (Ok resp, w) ->
         BeautifulSoup X (text resp) = Ok soup ->
         soup_find (lit "embed") [AttrIs (lit "type") (lit "application/pdf")] soup
         = None ->
         (soup_find (lit "iframe") [] soup = None ->
          print_error X (warning ++ lit " No PDF found.") = None ->
          fst (extract_pdf_link_from_page X detail_url st) = Ok None
          /\ stdout (snd (extract_pdf_link_from_page X detail_url st))
             = stdout st ++ [warning ++ lit " No PDF found."])
         /\ (forall frame,
                soup_find (lit "iframe") [] soup = Some frame ->
                lookup (lit "src") (tag_attrs frame) = None ->
                print_error X (warning ++ lit " Error extracting PDF link: "
                               ++ lit "'src'") = None ->
                fst (extract_pdf_link_from_page X detail_url st) = Ok None
                /\ stdout (snd (extract_pdf_link_from_page X detail_url st))
                   = stdout st ++ [warning ++ lit " Error extracting PDF link: "
                                   ++ lit "'src'"])).
Proof.
  split; [apply extract_pdf_link_calls|].
  split; [|split].
  - intros e E.
    destruct (extract_pdf_link_from_page X detail_url st) as [r s'] eqn:D.
    simpl in E. subst r.
    now apply (stages_raise_from_console X environ) in D.
  - intros C. now apply (stages_never_raise X environ C).
  - intros resp w soup Hreq Hsoup He. split.
    + intros Hi P. unfold extract_pdf_link_from_page, try_except.
      rewrite bind_eq.
      unfold http_get. rewrite Hreq. rewrite bind_lift, Hsoup.
      unfold raw_url_of. rewrite He, Hi. rewrite bind_lift. cbn [truthy negb].
      rewrite bind_print, P. unfold print. rewrite P. split; reflexivity.
    + intros frame Hi Hsrc P. unfold extract_pdf_link_from_page, try_except.
      rewrite bind_eq. unfold http_get. rewrite Hreq. rewrite bind_lift, Hsoup.
      unfold raw_url_of. rewrite He, Hi. unfold getitem. rewrite Hsrc.
      rewrite bind_lift.
      change (exn_str (Exn KeyError (quoted (lit "src")))) with (lit "'src'").
      rewrite bind_print, P. unfold print. rewrite P. split; reflexivity.
Qed.

End Answers.

(* ================================================================== *)
(** * The added properties at work *)
(* ================================================================== *)

(** X7 on the plain platform. *)
Lemma fetcher_reads_first_row_witness :
  fst (get_latest_update Demo.plain (Demo.start Demo.plain tt Missing))
  = Ok (Some Demo.plain_entry).
Proof.
  edestruct (fetcher_reads_first_row Demo.plain (Demo.start Demo.plain tt Missing))
    as [H _].
  - reflexivity.
  - reflexivity.
  - reflexivity.
  - reflexivity.
  - reflexivity.
  - reflexivity.
  - rewrite H. reflexivity.
Defined.

(** X8 on the plain platform, whose second cell has spaces around the
    category. *)
Lemma fetched_fields_are_trimmed_witness :
  trimmed (date Demo.plain_entry) /\ trimmed (category Demo.plain_entry)
  /\ trimmed (title Demo.plain_entry).
Proof.
  eapply (fetched_fields_are_trimmed Demo.plain
            (Demo.start Demo.plain tt Missing) Demo.plain_entry).
  reflexivity.
Defined.

(** X13 on a listing without table. *)
Lemma run_without_update_requests_listing_only_witness :
  fst (main Demo.tableless Demo.environ (Demo.start Demo.tableless tt Missing))
  = Ok NoUpdate
  /\ calls (snd (main Demo.tableless Demo.environ
                   (Demo.start Demo.tableless tt Missing)))
     = [] ++ [Get SEBI_URL]
  /\ file (snd (main Demo.tableless Demo.environ
                  (Demo.start Demo.tableless tt Missing))) = Missing.
Proof.
  edestruct (run_without_update_requests_listing_only
               Demo.tableless Demo.environ
               (Demo.start Demo.tableless tt Missing))
    as (H1 & H2 & H3).
  - reflexivity.
  - reflexivity.
  - split; [exact H1|]. split; [exact H2 | exact H3].
Defined.

(** X14 with the title stored followed by a line break. *)
Lemma already_processed_iff_stored_title_matches_witness :
  fst (main Demo.plain Demo.environ
         (Demo.start Demo.plain tt (Stored (lit "Test Circular" ++ [CR; LF]))))
  = Ok AlreadyProcessed.
Proof.
  edestruct (already_processed_iff_stored_title_matches Demo.plain Demo.environ
               (Demo.start Demo.plain tt
                  (Stored (lit "Test Circular" ++ [CR; LF]))))
    as (_ & H & _).
  - reflexivity.
  - apply H.
    + split; reflexivity.
    + reflexivity.
    + eexists. split; reflexivity.
Defined.

(** X15 on the listing whose title has a carriage return, with that
    very title in the state file. *)
Lemma title_with_carriage_return_is_never_recognised_witness :
  In CR Demo.cr_title
  /\ fst (main Demo.with_cr_title Demo.environ
            (Demo.start Demo.with_cr_title tt (Stored Demo.cr_title)))
     <> Ok AlreadyProcessed.
Proof.
  assert (H : In CR Demo.cr_title) by (vm_compute; tauto).
  split; [exact H|].
  eapply (title_with_carriage_return_is_never_recognised
            Demo.with_cr_title Demo.environ
            (Demo.start Demo.with_cr_title tt (Stored Demo.cr_title))).
  - reflexivity.
  - exact H.
Defined.

(** X16 on the plain platform. *)
Lemma complete_run_requests_in_order_witness :
  fst (main Demo.plain Demo.environ (Demo.start Demo.plain tt Missing))
  = Ok Notified
  /\ exists latest link pdf_url txt summary s6,
      notified_through Demo.plain Demo.environ
        (Demo.start Demo.plain tt Missing) latest link pdf_url txt summary s6
      /\ calls (snd (main Demo.plain Demo.environ
                       (Demo.start Demo.plain tt Missing)))
         = calls (Demo.start Demo.plain tt Missing)
           ++ requests_of_run Demo.plain Demo.environ latest link pdf_url txt
                              summary.
Proof.
  split; [reflexivity|].
  apply (complete_run_requests_in_order Demo.plain Demo.environ
           (Demo.start Demo.plain tt Missing)).
  reflexivity.
Defined.

(** X17 on an answer without [summary_text]. *)
Lemma summarizer_reads_summary_text_witness :
  fst (summarize_text Demo.without_summary_text Demo.environ (lit "Some text")
         (Demo.start Demo.without_summary_text tt Missing))
  = Ok (PStr (warning ++ lit " No summary returned.")).
Proof.
  edestruct (summarizer_reads_summary_text Demo.without_summary_text
               Demo.environ (lit "Some text")
               (Demo.start Demo.without_summary_text tt Missing))
    as (H & _).
  - reflexivity.
  - reflexivity.
  - reflexivity.
  - rewrite (H [(lit "error", PStr (lit "loading"))] []); reflexivity.
Defined.

(** A detail page that embeds nothing stops the run for want of a
    document address. *)
Example bare_detail_page_stops_the_run :
  fst (main Demo.with_bare_detail Demo.environ
         (Demo.start Demo.with_bare_detail tt Missing))
  = Ok NoPdfUrl.
Proof. reflexivity. Qed.
